(** * EgressIP OVN rule analyzer: a shallow embedding and its properties

    Embedding of [src/tools/egressip/egressip_ovn_rule_analyzer.py]
    (class [EgressIPOVNRuleAnalyzer]) and of [_simple_trend] from
    [src/tools/egressip/egressip_metrics_collector.py].

    Python strings are modelled as Rocq [string]s whose characters are the
    code points 0x00..0xff (the Latin-1 range, one byte per character, as
    CPython stores such strings); the character classes below ([isspace],
    [\d], [\w], [str.lower]) are those of Python restricted to that range.
    Python [set]s are stdpp [gset string]. The float ratio of the
    consistency check is modelled as an exact rational [Q]; the float
    arithmetic of [_simple_trend] is modelled with Rocq's primitive
    binary64 floats, following CPython 3.11 (as the [hash] model does). *)

From Stdlib Require Import Ascii String ZArith QArith List Permutation.
From stdpp Require Import base gmap sets list strings sorting pretty.
From Stdlib Require PrimInt63 PrimFloat FloatOps SpecFloat.

Import ListNotations.
Open Scope string_scope.

(* ------------------------------------------------------------------ *)
(** ** Python character classes (Latin-1 range) *)

Module Py.

Definition code (c : ascii) : N := N_of_ascii c.

(** [str.isspace]: \t \n \v \f \r, \x1c-\x1f, space, \x85 and \xa0. *)
Definition is_space (c : ascii) : bool :=
  let n := code c in
  ((9 <=? n) && (n <=? 13))%N || ((28 <=? n) && (n <=? 32))%N
  || (n =? 133)%N || (n =? 160)%N.

(** Regex [\d] and the digits accepted by [int()]: only '0'..'9' here. *)
Definition is_digit (c : ascii) : bool :=
  let n := code c in ((48 <=? n) && (n <=? 57))%N.

(** Regex [\w] ([str.isalnum] or '_'). *)
Definition is_word (c : ascii) : bool :=
  let n := code c in
  ((48 <=? n) && (n <=? 57))%N || ((65 <=? n) && (n <=? 90))%N
  || ((97 <=? n) && (n <=? 122))%N || (n =? 95)%N
  || (n =? 170)%N || (n =? 178)%N || (n =? 179)%N || (n =? 181)%N
  || (n =? 185)%N || (n =? 186)%N || ((188 <=? n) && (n <=? 190))%N
  || ((192 <=? n) && (n <=? 214))%N || ((216 <=? n) && (n <=? 246))%N
  || ((248 <=? n) && (n <=? 255))%N.

(** [str.lower] on one character. *)
Definition lower_char (c : ascii) : ascii :=
  let n := code c in
  if ((65 <=? n) && (n <=? 90))%N || ((192 <=? n) && (n <=? 214))%N
     || ((216 <=? n) && (n <=? 222))%N
  then ascii_of_N (n + 32) else c.

Fixpoint lower (s : string) : string :=
  match s with
  | EmptyString => EmptyString
  | String c r => String (lower_char c) (lower r)
  end.

(** [sub in s]. *)
Fixpoint contains (sub s : string) : bool :=
  String.prefix sub s || match s with
                  | EmptyString => false
                  | String _ r => contains sub r
                  end.

Fixpoint lstrip (s : string) : string :=
  match s with
  | String c r => if is_space c then lstrip r else s
  | EmptyString => EmptyString
  end.

Fixpoint rev_str (s : string) : string :=
  match s with
  | EmptyString => EmptyString
  | String c r => rev_str r ++ String c EmptyString
  end.

(** [str.strip()]. *)
Definition strip (s : string) : string := rev_str (lstrip (rev_str (lstrip s))).

(** [str.split()]: runs of whitespace separate, no empty fields. *)
Fixpoint split_ws_aux (s cur : string) : list string :=
  match s with
  | EmptyString => if String.eqb cur "" then [] else [cur]
  | String c r =>
      if is_space c
      then (if String.eqb cur "" then split_ws_aux r "" else cur :: split_ws_aux r "")
      else split_ws_aux r (cur ++ String c EmptyString)
  end.

Definition split_ws (s : string) : list string := split_ws_aux s "".

(** First whitespace-free word of [s] and what follows it. *)
Fixpoint take_word (s : string) : string * string :=
  match s with
  | EmptyString => ("", "")
  | String c r =>
      if is_space c then ("", s)
      else let '(w, rest) := take_word r in (String c w, rest)
  end.

(** [str.split(None, 2)]: at most two splits; the remainder keeps its
    inner and trailing whitespace, its leading whitespace is skipped. *)
Definition split_ws_max2 (s : string) : list string :=
  let s1 := lstrip s in
  if String.eqb s1 "" then [] else
  let '(w1, r1) := take_word s1 in
  let r1' := lstrip r1 in
  if String.eqb r1' "" then [w1] else
  let '(w2, r2) := take_word r1' in
  let r2' := lstrip r2 in
  if String.eqb r2' "" then [w1; w2] else [w1; w2; r2'].

(** [str.split('\n')]. *)
Fixpoint split_nl_aux (s cur : string) : list string :=
  match s with
  | EmptyString => [cur]
  | String c r =>
      if Ascii.eqb c "010"%char then cur :: split_nl_aux r ""
      else split_nl_aux r (cur ++ String c EmptyString)
  end.

Definition split_nl (s : string) : list string := split_nl_aux s "".

Definition startswith (p s : string) : bool := String.prefix p s.

End Py.

(* ------------------------------------------------------------------ *)
(** ** The IPv4 regular expressions of the analyzer

    Both patterns are [\d{1,3}\.\d{1,3}\.\d{1,3}\.\d{1,3}]; the one of
    [_check_egressip_rule_consistency] is wrapped in [\b ... \b].  The
    matcher is written in continuation style: [k] receives the rest of the
    input and the greedy quantifier [{1,3}] tries 3, 2, then 1 digits, as
    Python's backtracking engine does. *)

Module IpRegex.

Definition orelse {A} (x y : option A) : option A :=
  match x with Some _ => x | None => y end.

(** [\d{1,3}] followed by the continuation [k]. *)
Definition grp (s : string) (k : string -> option string) : option string :=
  match s with
  | String a s1 =>
      if Py.is_digit a then
        match s1 with
        | String b s2 =>
            if Py.is_digit b then
              match s2 with
              | String c s3 =>
                  if Py.is_digit c then orelse (k s3) (orelse (k s2) (k s1))
                  else orelse (k s2) (k s1)
              | EmptyString => orelse (k s2) (k s1)
              end
            else k s1
        | EmptyString => k s1
        end
      else None
  | EmptyString => None
  end.

(** [\.] followed by [k]. *)
Definition dot (s : string) (k : string -> option string) : option string :=
  match s with
  | String c r => if Ascii.eqb c "."%char then k r else None
  | EmptyString => None
  end.

Definition ipv4 (s : string) (k : string -> option string) : option string :=
  grp s (fun s1 => dot s1 (fun s2 => grp s2 (fun s3 => dot s3 (fun s4 =>
  grp s4 (fun s5 => dot s5 (fun s6 => grp s6 k)))))).

(** [re.search(r'\d{1,3}\.\d{1,3}\.\d{1,3}\.\d{1,3}', s)] is not [None]. *)
Fixpoint search (s : string) : bool :=
  match ipv4 s (fun r => Some r) with
  | Some _ => true
  | None => match s with EmptyString => false | String _ r => search r end
  end.

Definition head_is_word (s : string) : bool :=
  match s with String c _ => Py.is_word c | EmptyString => false end.

Definition prev_is_word (p : option ascii) : bool :=
  match p with Some c => Py.is_word c | None => false end.

(** The bounded pattern at a position whose preceding character is [prev]:
    the match starts with a digit, so the leading [\b] holds iff [prev] is
    not a word character; it ends with a digit, so the trailing [\b] holds
    iff the next character is not a word character. Returns the rest. *)
Definition match_bounded (prev : option ascii) (s : string) : option string :=
  if prev_is_word prev then None
  else ipv4 s (fun r => if head_is_word r then None else Some r).

Definition last_char (m : string) : option ascii :=
  String.get (String.length m - 1) m.

(** [re.findall(r'\b\d{1,3}\.\d{1,3}\.\d{1,3}\.\d{1,3}\b', s)]: scan left
    to right, after a match resume at its end; [fuel] bounds the scan by
    the input length (every step consumes a character). *)
Fixpoint findall_go (fuel : nat) (prev : option ascii) (s : string) : list string :=
  match fuel with
  | O => []
  | S f =>
      match s with
      | EmptyString => []
      | String c r =>
          match match_bounded prev s with
          | Some rest =>
              let m := String.substring 0 (String.length s - String.length rest) s in
              m :: findall_go f (last_char m) rest
          | None => findall_go f (Some c) r
          end
      end
  end.

Definition findall (s : string) : list string := findall_go (String.length s) None s.

End IpRegex.

(* ------------------------------------------------------------------ *)
(** ** Parsed rule records ([_parse_egressip_snat_rule],
    [_parse_egressip_lrp_rule]) *)

(** A SNAT rule dict: either the parsed shape (with
    ["parsed_successfully": True]) or the failure shape, which carries only
    the raw line and ["egressip_related": False]. *)
Inductive snat_rule :=
| SnatParsed (external_ip logical_ip logical_port raw_rule : string)
             (egressip_related : bool)
| SnatUnparsed (raw_rule : string).

Inductive lrp_rule :=
| LrpParsed (priority match_ action raw_rule : string) (egressip_related : bool)
| LrpUnparsed (raw_rule : string).

Definition snat_raw (r : snat_rule) : string :=
  match r with SnatParsed _ _ _ raw _ | SnatUnparsed raw => raw end.
Definition lrp_raw (r : lrp_rule) : string :=
  match r with LrpParsed _ _ _ raw _ | LrpUnparsed raw => raw end.

Definition snat_parsed_successfully (r : snat_rule) : bool :=
  match r with SnatParsed _ _ _ _ _ => true | SnatUnparsed _ => false end.
Definition lrp_parsed_successfully (r : lrp_rule) : bool :=
  match r with LrpParsed _ _ _ _ _ => true | LrpUnparsed _ => false end.

Definition snat_related (r : snat_rule) : bool :=
  match r with SnatParsed _ _ _ _ b => b | SnatUnparsed _ => false end.
Definition lrp_related (r : lrp_rule) : bool :=
  match r with LrpParsed _ _ _ _ b => b | LrpUnparsed _ => false end.

(** [_is_egressip_related_snat]. *)
Definition is_egressip_related_snat (rule_line : string) : bool :=
  let lw := Py.lower rule_line in
  Py.contains "egressip" lw
  || (Py.contains "egress" lw && Py.contains "ip" lw)
  || IpRegex.search rule_line.

(** [_is_egressip_related_lrp]. *)
Definition is_egressip_related_lrp (rule_line : string) : bool :=
  let lw := Py.lower rule_line in
  Py.contains "egressip" lw
  || (Py.contains "egress" lw && Py.contains "ip" lw)
  || Py.contains "reroute" lw
  || IpRegex.search rule_line.

(** [_parse_egressip_snat_rule]. No statement of the [try] block raises, so
    the function is total. *)
Definition parse_egressip_snat_rule (rule_line : string) : snat_rule :=
  match Py.split_ws (Py.strip rule_line) with
  | p0 :: p1 :: p2 :: p3 :: _ =>
      if String.eqb (Py.lower p0) "snat"
      then SnatParsed p1 p2 p3 rule_line (is_egressip_related_snat rule_line)
      else SnatUnparsed rule_line
  | _ => SnatUnparsed rule_line
  end.

(** [_parse_egressip_lrp_rule]: [rule_line.strip().split(None, 2)]. *)
Definition parse_egressip_lrp_rule (rule_line : string) : lrp_rule :=
  match Py.split_ws_max2 (Py.strip rule_line) with
  | [p0; p1; p2] => LrpParsed p0 p1 p2 rule_line (is_egressip_related_lrp rule_line)
  | _ => LrpUnparsed rule_line
  end.

(** The line loops of [_get_egressip_snat_rules] and
    [_get_egressip_lrp_rules] over [stdout.decode().split('\n')]. *)
Definition snat_rules_of_lines (lines : list string) : list snat_rule :=
  map parse_egressip_snat_rule
      (filter (fun l => Py.contains "snat" (Py.lower l)) (map Py.strip lines)).

Definition lrp_rules_of_lines (lines : list string) : list lrp_rule :=
  map parse_egressip_lrp_rule
      (filter (fun l => negb (String.eqb l "") && negb (Py.startswith "Routing" l))
              (map Py.strip lines)).

(** The command output: [None] when the command fails (non-zero return
    code or an exception), in which case the functions return [[]]. *)
Definition get_egressip_snat_rules (stdout : option string) : list snat_rule :=
  match stdout with
  | Some out => snat_rules_of_lines (Py.split_nl out)
  | None => []
  end.

Definition get_egressip_lrp_rules (stdout : option string) : list lrp_rule :=
  match stdout with
  | Some out => lrp_rules_of_lines (Py.split_nl out)
  | None => []
  end.

(* ------------------------------------------------------------------ *)
(** ** [int()] on a priority string *)

Module PyInt.

Definition digit_val (c : ascii) : Z := Z.of_N (Py.code c) - 48.

(** Digits with single underscores between them ([int('1_0') = 10]). *)
Fixpoint digits_go (s : string) (acc : Z) (prev_us : bool) : option Z :=
  match s with
  | EmptyString => if prev_us then None else Some acc
  | String c r =>
      if Py.is_digit c then digits_go r (acc * 10 + digit_val c) false
      else if Ascii.eqb c "_"%char then (if prev_us then None else digits_go r acc true)
      else None
  end.

Definition digits (s : string) : option Z :=
  match s with
  | String c r => if Py.is_digit c then digits_go r (digit_val c) false else None
  | EmptyString => None
  end.

(** CPython's default [sys.get_int_max_str_digits()]: [int()] of a
    decimal string with more digits raises [ValueError]. *)
Definition max_str_digits : nat := 4300.

Fixpoint count_digits (s : string) : nat :=
  match s with
  | EmptyString => 0
  | String c r => ((if Py.is_digit c then 1 else 0) + count_digits r)%nat
  end.

(** The digits after the sign, with the digit limit: a string with more
    than 4300 digits is refused whether or not it is well formed (both
    give [ValueError]). *)
Definition digits_limited (s : string) : option Z :=
  if Nat.ltb max_str_digits (count_digits s) then None else digits s.

(** [int(s)] for a [str]: [None] stands for the [ValueError]. *)
Definition parse (s : string) : option Z :=
  match Py.strip s with
  | String c r =>
      if Ascii.eqb c "+"%char then digits_limited r
      else if Ascii.eqb c "-"%char then option_map Z.opp (digits_limited r)
      else digits_limited (String c r)
  | EmptyString => None
  end.

End PyInt.

(* ------------------------------------------------------------------ *)
(** ** Rule analyses ([_analyze_egressip_snat_rules],
    [_analyze_egressip_lrp_rules]) *)

Record snat_analysis := {
  sa_total_rules : nat;
  sa_parsed_successfully : nat;
  sa_egressip_related : nat;
  sa_external_ips : gset string;
  sa_logical_ips : gset string;
  sa_potential_issues : list string
}.

Definition failed_issue (raw : string) : string := "Failed to parse rule: " ++ raw.

Definition count {A} (p : A -> bool) (l : list A) : nat := length (filter p l).

(** The loop over the rules, accumulating (external, logical, issues). *)
Fixpoint snat_loop (rules : list snat_rule)
    (ext lg : gset string) (issues : list string)
    : gset string * gset string * list string :=
  match rules with
  | [] => (ext, lg, issues)
  | SnatParsed e l _ _ _ :: rs =>
      snat_loop rs (if String.eqb e "" then ext else {[ e ]} ∪ ext)
                   (if String.eqb l "" then lg else {[ l ]} ∪ lg) issues
  | SnatUnparsed raw :: rs => snat_loop rs ext lg (app issues [failed_issue raw])
  end.

Definition analyze_egressip_snat_rules (rules : list snat_rule) : snat_analysis :=
  let '(ext, lg, issues) := snat_loop rules ∅ ∅ [] in
  {| sa_total_rules := length rules;
     sa_parsed_successfully := count snat_parsed_successfully rules;
     sa_egressip_related := count snat_related rules;
     sa_external_ips := ext;
     sa_logical_ips := lg;
     sa_potential_issues := issues |}.

Record lrp_analysis := {
  la_total_rules : nat;
  la_parsed_successfully : nat;
  la_egressip_related : nat;
  la_priorities : list Z;
  la_action_types : list (string * nat);
  la_potential_issues : list string
}.

(** [d[k] = d.get(k, 0) + 1] on an insertion-ordered dict. *)
Fixpoint bump (k : string) (d : list (string * nat)) : list (string * nat) :=
  match d with
  | [] => [(k, 1%nat)]
  | (k', n) :: d' => if String.eqb k k' then (k', S n) :: d' else (k', n) :: bump k d'
  end.

(** The loop body; [None] stands for the [IndexError] of
    [rule["action"].split()[0]] on an all-whitespace action, which the
    parser never produces. *)
Fixpoint lrp_loop (rules : list lrp_rule)
    (prios : list Z) (acts : list (string * nat)) (issues : list string)
    : option (list Z * list (string * nat) * list string) :=
  match rules with
  | [] => Some (prios, acts, issues)
  | LrpParsed p _ a _ _ :: rs =>
      let '(prios', issues') :=
        if String.eqb p "" then (prios, issues)
        else match PyInt.parse p with
             | Some z => (app prios [z], issues)
             | None => (prios, app issues ["Invalid priority: " ++ p])
             end in
      if String.eqb a "" then lrp_loop rs prios' acts issues'
      else match Py.split_ws a with
           | w :: _ => lrp_loop rs prios' (bump w acts) issues'
           | [] => None
           end
  | LrpUnparsed raw :: rs => lrp_loop rs prios acts (app issues [failed_issue raw])
  end.

Definition analyze_egressip_lrp_rules (rules : list lrp_rule) : option lrp_analysis :=
  match lrp_loop rules [] [] [] with
  | Some (prios, acts, issues) =>
      Some {| la_total_rules := length rules;
              la_parsed_successfully := count lrp_parsed_successfully rules;
              la_egressip_related := count lrp_related rules;
              la_priorities := prios;
              la_action_types := acts;
              la_potential_issues := issues |}
  | None => None
  end.

(* ------------------------------------------------------------------ *)
(** ** [_check_egressip_rule_consistency] *)

(** [snat_external_ips]: external IPs of parsed, EgressIP-related SNAT
    rules with a non-empty external IP. *)
Fixpoint relevant_snat_ips (rules : list snat_rule) : gset string :=
  match rules with
  | [] => ∅
  | SnatParsed e _ _ _ true :: rs =>
      if String.eqb e "" then relevant_snat_ips rs else {[ e ]} ∪ relevant_snat_ips rs
  | _ :: rs => relevant_snat_ips rs
  end.

(** [lrp_ip_references]: the bounded IPv4 literals of
    [f"{match} {action}"] over parsed, EgressIP-related LRP rules. *)
Fixpoint lrp_ip_references (rules : list lrp_rule) : gset string :=
  match rules with
  | [] => ∅
  | LrpParsed _ m a _ true :: rs =>
      list_to_set (IpRegex.findall (m ++ " " ++ a)) ∪ lrp_ip_references rs
  | _ :: rs => lrp_ip_references rs
  end.

Record consistency := {
  snat_lrp_correlation : string;
  issues_found : list string;
  consistency_score : Q;
  details_snat_external_ips : gset string;
  details_lrp_ip_references : gset string;
  details_correlated_ips : gset string
}.

Definition low_correlation_issue : string :=
  "Low correlation between EgressIP SNAT and LRP rules".

(** The float literals 0.8 and 0.5 are the rationals 4/5 and 1/2. *)
Definition check_egressip_rule_consistency
    (snat_rules : list snat_rule) (lrp_rules : list lrp_rule) : consistency :=
  let a := relevant_snat_ips snat_rules in
  let b := lrp_ip_references lrp_rules in
  let i := a ∩ b in
  let mk corr issues score :=
    {| snat_lrp_correlation := corr; issues_found := issues;
       consistency_score := score; details_snat_external_ips := a;
       details_lrp_ip_references := b; details_correlated_ips := i |} in
  if bool_decide (a ≠ ∅) && bool_decide (b ≠ ∅) then
    let ratio := (inject_Z (Z.of_nat (size i)) / inject_Z (Z.of_nat (size a)))%Q in
    if negb (Qle_bool ratio (4 # 5)) then mk "good" [] ratio
    else if negb (Qle_bool ratio (1 # 2)) then mk "moderate" [] ratio
    else mk "poor" [low_correlation_issue] ratio
  else mk "unknown" [] 0%Q.

(* ------------------------------------------------------------------ *)
(** ** [_get_egressip_context] and [_validate_rules_against_egressips] *)

(** One item of [oc get egressips -o json]: its name, [spec.egressIPs]
    and, per [status.items] entry, its ["egressIP"] key when present. *)
Record egressip_obj := {
  eo_name : string;
  eo_spec_ips : list string;
  eo_status_items : list (option string)
}.

Inductive egressip_context :=
| CtxAvailable (objs : list egressip_obj)
| CtxUnavailable (error : string).

(** [total_assigned_ips]: the ["egressIP"] values of the status items. *)
Definition total_assigned_ips (objs : list egressip_obj) : gset string :=
  list_to_set (flat_map (fun o => flat_map (fun it => match it with
                                                      | Some ip => [ip]
                                                      | None => [] end)
                                           (eo_status_items o)) objs).

Record validation_summary := {
  total_assigned_egressips : nat;
  total_snat_external_ips : nat;
  missing_rules_count : nat;
  unexpected_rules_count : nat;
  validation_passed : bool
}.

Record validation := {
  validation_possible : bool;
  missing_snat_rules : gset string;
  unexpected_snat_rules : gset string;
  v_summary : option validation_summary;
  v_error : option string
}.

Definition validate_rules_against_egressips
    (snat_rules : list snat_rule) (ctx : egressip_context) : validation :=
  match ctx with
  | CtxUnavailable err =>
      {| validation_possible := false; missing_snat_rules := ∅;
         unexpected_snat_rules := ∅; v_summary := None; v_error := Some err |}
  | CtxAvailable objs =>
      let assigned := total_assigned_ips objs in
      let snat := relevant_snat_ips snat_rules in
      let missing := assigned ∖ snat in
      let unexpected := snat ∖ assigned in
      {| validation_possible := true;
         missing_snat_rules := missing;
         unexpected_snat_rules := unexpected;
         v_summary := Some {| total_assigned_egressips := size assigned;
                              total_snat_external_ips := size snat;
                              missing_rules_count := size missing;
                              unexpected_rules_count := size unexpected;
                              validation_passed :=
                                Nat.eqb (size missing) 0 && Nat.eqb (size unexpected) 0 |};
         v_error := None |}
  end.

(* ------------------------------------------------------------------ *)
(** ** Multi-node comparison ([analyze_node_rules] as far as the
    comparison reads it, [_compare_egressip_rule_counts],
    [_compare_egressip_rule_content], [_identify_egressip_inconsistencies]) *)

Record node_report := {
  nr_snat_rules_count : nat;
  nr_lrp_rules_count : nat;
  nr_snat_analysis : snat_analysis;
  nr_lrp_analysis : lrp_analysis;
  nr_consistency : consistency
}.

(** The ["status"] tag of [analyze_node_rules]. *)
Inductive node_result :=
| NodeSuccess (r : node_report)
| NodeError (error : string).

(** [analyze_node_rules] from the two command outputs; the only statement
    that can raise on parser output is the LRP analysis. *)
Definition analyze_node_rules (snat_out lrp_out : option string) : node_result :=
  let snat := get_egressip_snat_rules snat_out in
  let lrp := get_egressip_lrp_rules lrp_out in
  match analyze_egressip_lrp_rules lrp with
  | Some la =>
      NodeSuccess {| nr_snat_rules_count := length snat;
                     nr_lrp_rules_count := length lrp;
                     nr_snat_analysis := analyze_egressip_snat_rules snat;
                     nr_lrp_analysis := la;
                     nr_consistency := check_egressip_rule_consistency snat lrp |}
  | None => NodeError "list index out of range"
  end.

(** The dict [node_analyses] as its list of items (distinct node names). *)
Definition compare_egressip_rule_counts (nas : list (string * node_result))
    : list (string * (nat * nat)) :=
  flat_map (fun '(n, a) => match a with
                           | NodeSuccess r => [(n, (nr_snat_rules_count r, nr_lrp_rules_count r))]
                           | NodeError _ => []
                           end) nas.

Definition compare_egressip_rule_content (nas : list (string * node_result))
    : list (string * (gset string * list Z)) :=
  flat_map (fun '(n, a) => match a with
                           | NodeSuccess r => [(n, (sa_external_ips (nr_snat_analysis r),
                                                   la_priorities (nr_lrp_analysis r)))]
                           | NodeError _ => []
                           end) nas.

Inductive inconsistency :=
| RuleCountMismatch (details : list (string * (nat * nat)))
| MissingSnatIps (node : string) (missing_ips : gset string).

Definition all_snat_ips (content : list (string * (gset string * list Z))) : gset string :=
  foldr (fun '(_, (ips, _)) acc => acc ∪ ips) ∅ content.

Definition identify_egressip_inconsistencies
    (counts : list (string * (nat * nat)))
    (content : list (string * (gset string * list Z))) : list inconsistency :=
  (if Nat.ltb 1 (size (list_to_set (map snd counts) : gset (nat * nat)))
   then [RuleCountMismatch counts] else [])
  ++ (if Nat.ltb 1 (length content) then
        let u := all_snat_ips content in
        flat_map (fun '(n, (ips, _)) =>
                    let missing := u ∖ ips in
                    if bool_decide (missing = ∅) then [] else [MissingSnatIps n missing])
                 content
      else []).

Definition compare_egressip_rules_across_nodes (nas : list (string * node_result))
    : list inconsistency :=
  identify_egressip_inconsistencies (compare_egressip_rule_counts nas)
                                    (compare_egressip_rule_content nas).

(** External IPs of all successfully parsed SNAT rules, related to
    EgressIP or not (what [snat_analysis["external_ips"]] collects). *)
Fixpoint parsed_snat_ips (rules : list snat_rule) : gset string :=
  match rules with
  | [] => ∅
  | SnatParsed e _ _ _ _ :: rs =>
      if String.eqb e "" then parsed_snat_ips rs else {[ e ]} ∪ parsed_snat_ips rs
  | SnatUnparsed _ :: rs => parsed_snat_ips rs
  end.

(* ------------------------------------------------------------------ *)
(** ** Python's [hash] on [str] (CPython >= 3.11: SipHash-1-3 keyed by the
    per-process secret [_Py_HashSecret], random unless PYTHONHASHSEED) *)

Module SipHash.

Open Scope Z_scope.

Definition mask64 (x : Z) : Z := Z.land x (2 ^ 64 - 1).
Definition add64 (x y : Z) : Z := mask64 (x + y).
Definition rotl (x : Z) (b : Z) : Z :=
  mask64 (Z.lor (Z.shiftl x b) (Z.shiftr x (64 - b))).

Record st := { v0 : Z; v1 : Z; v2 : Z; v3 : Z }.

(** [HALF_ROUND(a,b,c,d,s,t)]. *)
Definition half_round (a b c d s t : Z) : Z * Z * Z * Z :=
  let a := add64 a b in
  let c := add64 c d in
  let b := Z.lxor (rotl b s) a in
  let d := Z.lxor (rotl d t) c in
  let a := rotl a 32 in
  (a, b, c, d).

(** [SINGLE_ROUND(v0,v1,v2,v3)]. *)
Definition single_round (v : st) : st :=
  let '(a0, a1, a2, a3) := half_round (v0 v) (v1 v) (v2 v) (v3 v) 13 16 in
  let '(b2, b1, b0, b3) := half_round a2 a1 a0 a3 17 21 in
  {| v0 := b0; v1 := b1; v2 := b2; v3 := b3 |}.

(** Little-endian word of up to eight bytes. *)
Fixpoint le_word (bs : list Z) : Z :=
  match bs with
  | [] => 0
  | b :: r => Z.lor b (Z.shiftl (le_word r) 8)
  end.

Definition compress (v : st) (m : Z) : st :=
  let v := single_round {| v0 := v0 v; v1 := v1 v; v2 := v2 v; v3 := Z.lxor (v3 v) m |} in
  {| v0 := Z.lxor (v0 v) m; v1 := v1 v; v2 := v2 v; v3 := v3 v |}.

(** The [while (src_sz >= 8)] loop, then the tail word. *)
Fixpoint blocks (fuel : nat) (bs : list Z) (v : st) : st * list Z :=
  match fuel with
  | O => (v, bs)
  | S f =>
      if Nat.leb 8 (length bs) then blocks f (skipn 8 bs) (compress v (le_word (firstn 8 bs)))
      else (v, bs)
  end.

Definition siphash13 (k0 k1 : Z) (bs : list Z) : Z :=
  let b := mask64 (Z.shiftl (Z.of_nat (length bs)) 56) in
  let v := {| v0 := Z.lxor k0 8317987319222330741;
              v1 := Z.lxor k1 7237128888997146477;
              v2 := Z.lxor k0 7816392313619706465;
              v3 := Z.lxor k1 8387220255154660723 |} in
  let '(v, tl) := blocks (length bs) bs v in
  let b := Z.lor b (le_word tl) in
  let v := compress v b in
  let v := {| v0 := v0 v; v1 := v1 v; v2 := Z.lxor (v2 v) 255; v3 := v3 v |} in
  let v := single_round (single_round (single_round v)) in
  Z.lxor (Z.lxor (v0 v) (v1 v)) (Z.lxor (v2 v) (v3 v)).

End SipHash.

(** The per-process key [(k0, k1)] of [_Py_HashSecret.siphash]. *)
Definition hash_key : Type := (Z * Z)%type.

Definition str_bytes (s : string) : list Z :=
  map (fun c => Z.of_N (Py.code c)) (list_ascii_of_string s).

(** [hash(s)] for a one-byte-per-character [str]: [_Py_HashBytes]. *)
Definition py_hash (key : hash_key) (s : string) : Z :=
  if Nat.eqb (String.length s) 0 then 0%Z else
  let x := SipHash.siphash13 (fst key) (snd key) (str_bytes s) in
  let x := if (2 ^ 63 <=? x)%Z then (x - 2 ^ 64)%Z else x in
  if (x =? -1)%Z then (-2)%Z else x.

(* ------------------------------------------------------------------ *)
(** ** [str(sorted(raw_rules))]: Python's ordering and [repr] on [str] *)

Module PyStr.

(** Python compares [str]s lexicographically by code point. *)
Definition str_le (a b : string) : Prop := String.leb a b = true.

#[global] Instance str_le_dec : RelDecision str_le :=
  fun a b => decide (String.leb a b = true).

(** [sorted(l)]: with a total order the result does not depend on the
    sorting algorithm (see [sorted_unique] below). *)
Definition sorted (l : list string) : list string := merge_sort str_le l.

Definition hex_digit (n : N) : ascii :=
  match String.get (N.to_nat n) "0123456789abcdef" with
  | Some c => c
  | None => "0"%char
  end.

Definition backslash : ascii := "092"%char.
Definition dquote : ascii := "034"%char.
Definition squote : ascii := "039"%char.

Definition one (c : ascii) : string := String c EmptyString.

(** One character of [unicode_repr] given the chosen quote [q]. *)
Definition escape_char (q c : ascii) : string :=
  let n := Py.code c in
  if Ascii.eqb c q || Ascii.eqb c backslash then String backslash (one c)
  else if (n =? 9)%N then String backslash (one "t"%char)
  else if (n =? 10)%N then String backslash (one "n"%char)
  else if (n =? 13)%N then String backslash (one "r"%char)
  else if (n <? 32)%N || (n =? 127)%N || ((128 <=? n) && (n <=? 160))%N || (n =? 173)%N
  then String backslash (String "x"%char
         (String (hex_digit (n / 16)) (one (hex_digit (n mod 16)))))
  else one c.

Fixpoint escape (q : ascii) (s : string) : string :=
  match s with
  | EmptyString => EmptyString
  | String c r => escape_char q c ++ escape q r
  end.

(** [repr(s)]: double quotes iff [s] has a single quote and no double one. *)
Definition repr (s : string) : string :=
  let q := if Py.contains (one squote) s && negb (Py.contains (one dquote) s)
           then dquote else squote in
  String q (escape q s ++ one q).

(** [str(l)] for a list of [str]. *)
Definition str_list (l : list string) : string :=
  "[" ++ String.concat ", " (map repr l) ++ "]".

End PyStr.

(* ------------------------------------------------------------------ *)
(** ** [_take_egressip_rule_snapshot] *)

Record snapshot := {
  timestamp : string;
  snat_count : nat;
  lrp_count : nat;
  egressip_snat_count : nat;
  egressip_lrp_count : nat;
  snat_rules_hash : Z;
  lrp_rules_hash : Z
}.

Definition rules_hash (key : hash_key) (raws : list string) : Z :=
  py_hash key (PyStr.str_list (PyStr.sorted raws)).

(** The snapshot from the two rule lists; [key] is the process's hash
    secret and [now] the value of [datetime.utcnow().isoformat()]. *)
Definition snapshot_of_rules (key : hash_key) (now : string)
    (snat : list snat_rule) (lrp : list lrp_rule) : snapshot :=
  {| timestamp := now;
     snat_count := length snat;
     lrp_count := length lrp;
     egressip_snat_count := count snat_related snat;
     egressip_lrp_count := count lrp_related lrp;
     snat_rules_hash := rules_hash key (map snat_raw snat);
     lrp_rules_hash := rules_hash key (map lrp_raw lrp) |}.

(** The snapshot from the output lines of [lr-nat-list] and
    [lr-policy-list]. *)
Definition snapshot_of_lines (key : hash_key) (now : string)
    (snat_lines lrp_lines : list string) : snapshot :=
  snapshot_of_rules key now (snat_rules_of_lines snat_lines) (lrp_rules_of_lines lrp_lines).

Definition take_egressip_rule_snapshot (key : hash_key) (now : string)
    (snat_out lrp_out : option string) : snapshot :=
  snapshot_of_rules key now (get_egressip_snat_rules snat_out) (get_egressip_lrp_rules lrp_out).

(* ------------------------------------------------------------------ *)
(** ** [monitor_egressip_rule_changes]

    The body runs in a small monad threading the local list [snapshots]
    and raising Python exceptions. [ZeroDivisionError] derives from
    [Exception] and is caught by the handler; [asyncio.CancelledError]
    derives from [BaseException] (Python >= 3.8) and is not. *)

Module Monitor.

Inductive py_exc := ZeroDivisionError | CancelledError.

Definition is_exception (e : py_exc) : bool :=
  match e with ZeroDivisionError => true | CancelledError => false end.

Definition exc_message (e : py_exc) : string :=
  match e with
  | ZeroDivisionError => "integer division or modulo by zero"
  | CancelledError => ""
  end.

Definition M (A : Type) : Type := list snapshot -> (py_exc + A) * list snapshot.

Definition ret {A} (x : A) : M A := fun s => (inr x, s).
Definition bind {A B} (m : M A) (f : A -> M B) : M B :=
  fun s => match m s with
           | (inr x, s') => f x s'
           | (inl e, s') => (inl e, s')
           end.
Definition raise {A} (e : py_exc) : M A := fun s => (inl e, s).

#[local] Instance M_ret : MRet M := @ret.
#[local] Instance M_bind : MBind M := fun A B f m => bind m f.

(** [snapshots.append(x)]. *)
Definition append (x : snapshot) : M unit := fun s => (inr tt, app s [x]).

(** Python's [a // b] on [int]s: floor division, [ZeroDivisionError] on 0. *)
Definition floordiv (a b : Z) : M Z :=
  if (b =? 0)%Z then raise ZeroDivisionError else ret (a / b)%Z.

(** The environment of one session: the snapshot returned by the [i]-th
    call of [_take_egressip_rule_snapshot] (0 is the initial one), and the
    number of the [asyncio.sleep] call, if any, during which the task is
    cancelled. *)
Record env := {
  take : nat -> snapshot;
  cancelled_at : option nat
}.

Definition sleep (e : env) (i : nat) : M unit :=
  match cancelled_at e with
  | Some j => if Nat.eqb i j then raise CancelledError else ret tt
  | None => ret tt
  end.

(** [for i in range(checks_remaining)]: sleep, then take snapshot [i+1]. *)
Fixpoint checks (e : env) (i n : nat) : M unit :=
  match n with
  | O => ret tt
  | S n' => sleep e i ;; append (take e (S i)) ;; checks e (S i) n'
  end.

Definition body (e : env) (duration_seconds : Z) : M unit :=
  append (take e 0) ;;
  let check_interval := Z.min 30 (duration_seconds / 10) in
  checks_remaining ← floordiv duration_seconds check_interval ;
  checks e 0 (Z.to_nat checks_remaining).

(** [_analyze_egressip_rule_changes]: the number of consecutive pairs
    that differ in a count or a hash. *)
Definition snapshot_differs (p c : snapshot) : bool :=
  negb (Nat.eqb (snat_count p) (snat_count c)
        && Nat.eqb (lrp_count p) (lrp_count c)
        && Nat.eqb (egressip_snat_count p) (egressip_snat_count c)
        && Nat.eqb (egressip_lrp_count p) (egressip_lrp_count c)
        && Z.eqb (snat_rules_hash p) (snat_rules_hash c)
        && Z.eqb (lrp_rules_hash p) (lrp_rules_hash c)).

Fixpoint change_events (l : list snapshot) : nat :=
  match l with
  | p :: ((c :: _) as r) => (if snapshot_differs p c then 1 else 0) + change_events r
  | _ => 0
  end.

(** [_assess_egressip_rule_stability]. *)
Definition stability (events : nat) : string :=
  if Nat.eqb events 0 then "stable"
  else if Nat.leb events 2 then "mostly_stable" else "unstable".

Inductive monitor_result :=
| MonSuccess (node_name : string) (monitoring_duration : Z) (snapshots_taken : nat)
             (total_change_events : nat) (stability_ : string)
             (detailed_snapshots : list snapshot)
| MonError (node_name : string) (error : string).

(** What the caller of the coroutine observes: a returned dict, or an
    exception escaping the [except Exception] handler. *)
Inductive outcome :=
| Returned (r : monitor_result)
| Propagated (e : py_exc).

Definition monitor_egressip_rule_changes (e : env) (node_name : string)
    (duration_seconds : Z) : outcome :=
  match body e duration_seconds [] with
  | (inr _, snaps) =>
      Returned (MonSuccess node_name duration_seconds (length snaps)
                  (change_events snaps) (stability (change_events snaps)) snaps)
  | (inl ex, _) =>
      if is_exception ex then Returned (MonError node_name (exc_message ex))
      else Propagated ex
  end.

(** The snapshots a result hands back to the caller. *)
Definition returned_snapshots (o : outcome) : list snapshot :=
  match o with
  | Returned (MonSuccess _ _ _ _ _ l) => l
  | _ => []
  end.

End Monitor.

(* ------------------------------------------------------------------ *)
(** ** [_simple_trend] (metrics collector) *)

Module Trend.

Import PrimInt63 PrimFloat.

(** A list length as a machine integer (lengths of Python lists are
    below [2^63]). *)
Fixpoint int_of_nat (n : nat) : PrimInt63.int :=
  match n with
  | O => 0%uint63
  | S n' => PrimInt63.add (int_of_nat n') 1%uint63
  end.

(** The [float] an [int] is converted to in [x / n] (round to nearest). *)
Definition float_of_nat (n : nat) : float := of_uint63 (int_of_nat n).

(** [sum(l)] of CPython 3.11 on a list of floats: the start value, the
    int [0], added to the first element gives [0.0 + x1]; the elements are
    then added from left to right in binary64. *)
Definition py_sum (l : list float) : float := fold_left add l 0%float.

Definition simple_trend (values : list float) : string :=
  if Nat.ltb (length values) 2 then "insufficient_data" else
  let mid_point := Nat.div (length values) 2 in
  let first_half_avg :=
    if Nat.ltb 0 mid_point
    then (py_sum (firstn mid_point values) / float_of_nat mid_point)%float
    else 0%float in
  let second_half_avg :=
    (py_sum (skipn mid_point values) / float_of_nat (length values - mid_point))%float in
  let diff_percent :=
    if ltb 0 first_half_avg
    then ((second_half_avg - first_half_avg) / first_half_avg * 100)%float
    else 0%float in
  if ltb 10 diff_percent then "increasing"
  else if ltb diff_percent (-10) then "decreasing"
  else "stable".

(** The specification's formula with the code's float operations: the
    mean of a half is its float sum over its length, and the percent
    change is [(m2 - m1) / m1 * 100] in binary64. *)
Definition fmean (l : list float) : float :=
  (py_sum l / float_of_nat (length l))%float.

Definition fpercent_change (values : list float) : float :=
  let mid := Nat.div (length values) 2 in
  let m1 := fmean (firstn mid values) in
  let m2 := fmean (skipn mid values) in
  ((m2 - m1) / m1 * 100)%float.

Definition fdirection_of (pc : float) : string :=
  if ltb 10 pc then "increasing"
  else if ltb pc (-10) then "decreasing"
  else "stable".

(** The trend as the specification words it, computed exactly over the
    rationals: split at [floor(len/2)], percent change of the second-half
    mean over the first-half mean. *)
Definition sumQ (l : list Q) : Q := fold_right Qplus 0%Q l.

Definition Qgtb (x y : Q) : bool := negb (Qle_bool x y).
Definition Qltb (x y : Q) : bool := negb (Qle_bool y x).

Definition mean (l : list Q) : Q := (sumQ l / inject_Z (Z.of_nat (length l)))%Q.

Definition percent_change (values : list Q) : Q :=
  let mid := Nat.div (length values) 2 in
  let m1 := mean (firstn mid values) in
  let m2 := mean (skipn mid values) in
  ((m2 - m1) / m1 * 100)%Q.

Definition direction_of (pc : Q) : string :=
  if Qgtb pc 10 then "increasing"
  else if Qltb pc (-10) then "decreasing"
  else "stable".

Definition spec_trend (values : list Q) : string :=
  if Nat.ltb (length values) 2 then "insufficient_data"
  else direction_of (percent_change values).

(** The exact rational value of a finite float ([m * 2^e]). *)
Definition to_Q (f : float) : Q :=
  match FloatOps.Prim2SF f with
  | SpecFloat.S754_finite neg m e =>
      let v := match e with
               | Zpos p => inject_Z (Zpos m * 2 ^ Zpos p)
               | Z0 => inject_Z (Zpos m)
               | Zneg p => Qmake (Zpos m) (2 ^ p)
               end in
      if neg then Qopp v else v
  | _ => 0%Q
  end.

(** Series used below: scenario E of the specification, a series whose
    float sum rounds up, and one with a negative first half. *)
Definition scenario_e : list float := [10; 10; 10; 20; 20]%float.

#[local] Set Warnings "-inexact-float".
Definition rounding_series : list float := [1.0; 1.0; 1.2]%float.

Definition negative_base_series : list float := [-10; -5]%float.

End Trend.

(* ------------------------------------------------------------------ *)
(** ** Concrete inputs: scenario A of the specification *)

Definition scenarioA_snat : list snat_rule :=
  get_egressip_snat_rules (Some "snat 10.0.0.5 192.168.1.10 port1").

Definition scenarioA_lrp : list lrp_rule :=
  get_egressip_lrp_rules (Some "100 ip4.src==192.168.1.10 reroute 10.0.0.5").

(** A session whose rule source always returns the empty rule lists and
    which is never cancelled. *)
Definition quiet_env : Monitor.env :=
  {| Monitor.take := fun _ => snapshot_of_rules (0, 0)%Z "" [] [];
     Monitor.cancelled_at := None |}.

(** The IPs an EgressIP object declares in [spec.egressIPs], as the
    specification words "declared IPs"; the code does not read them for
    the validation. *)
Definition declared_ips (objs : list egressip_obj) : gset string :=
  list_to_set (flat_map eo_spec_ips objs).

(** An EgressIP object that declares 10.0.0.9 but has no status item yet. *)
Definition unassigned_obj : egressip_obj :=
  {| eo_name := "eip-1"; eo_spec_ips := ["10.0.0.9"]; eo_status_items := [] |}.

(** Command output made of the given lines. *)
Definition lines_text (ls : list string) : string :=
  String.concat (String "010"%char EmptyString) ls.

(** Scenario C of the specification: node1 has the SNAT rule of 10.0.0.5,
    node2 those of 10.0.0.5 and 10.0.0.6. *)
Definition scenarioC_nodes : list (string * node_result) :=
  [("node1", analyze_node_rules (Some (lines_text ["snat 10.0.0.5 192.168.1.10 port1"]))
                                (Some ""));
   ("node2", analyze_node_rules (Some (lines_text ["snat 10.0.0.5 192.168.1.10 port1";
                                                   "snat 10.0.0.6 192.168.1.11 port2"]))
                                (Some ""))].

(** An IPv6 SNAT rule on node1 only: parsed, but not EgressIP-related
    (no IPv4 literal, no "egress" keyword). *)
Definition ipv6_nodes : list (string * node_result) :=
  [("node1", analyze_node_rules (Some "snat fd00::5 fd01::10 port1") (Some ""));
   ("node2", analyze_node_rules (Some "") (Some ""))].

(* ------------------------------------------------------------------ *)
(** ** [_generate_egressip_recommendations] *)

Definition rec_no_snat : string :=
  "No EgressIP SNAT rules found - check if EgressIP objects are properly configured".
Definition rec_snat_parse : string :=
  "Some EgressIP SNAT rules failed to parse - review OVN rule format".
Definition rec_snat_unrelated : string :=
  "No EgressIP-related SNAT rules detected - verify EgressIP assignments".
Definition rec_no_lrp : string :=
  "No EgressIP LRP rules found - this may indicate OVN configuration issues".
Definition rec_lrp_parse : string :=
  "Some EgressIP LRP rules failed to parse - review OVN rule format".
Definition rec_lrp_unrelated : string :=
  "No EgressIP-related LRP rules detected - check logical router policies".
Definition rec_poor : string :=
  "Poor correlation between EgressIP SNAT and LRP rules - investigate OVN rule synchronization".
Definition rec_missing (n : nat) : string :=
  "Missing EgressIP SNAT rules for " ++ pretty n ++ " EgressIPs - check OVN rule creation".
Definition rec_unexpected (n : nat) : string :=
  "Found " ++ pretty n ++ " unexpected EgressIP SNAT rules - check for stale rules".
Definition rec_ok : string :=
  "EgressIP OVN rules analysis shows no major issues - monitoring and periodic validation recommended".

(** [validation_results["validation_summary"].get(k, 0)]: the summary is
    the empty dict when the context was unavailable. *)
Definition summary_get (f : validation_summary -> nat) (v : validation) : nat :=
  match v_summary v with Some s => f s | None => 0 end.

Definition generate_egressip_recommendations (sa : snat_analysis) (la : lrp_analysis)
    (cc : consistency) (v : validation) : list string :=
  let r_snat :=
    if Nat.eqb (sa_total_rules sa) 0 then [rec_no_snat]
    else if Nat.ltb (sa_parsed_successfully sa) (sa_total_rules sa) then [rec_snat_parse]
    else if Nat.eqb (sa_egressip_related sa) 0 then [rec_snat_unrelated]
    else [] in
  let r_lrp :=
    if Nat.eqb (la_total_rules la) 0 then [rec_no_lrp]
    else if Nat.ltb (la_parsed_successfully la) (la_total_rules la) then [rec_lrp_parse]
    else if Nat.eqb (la_egressip_related la) 0 then [rec_lrp_unrelated]
    else [] in
  let r_cons :=
    if negb (Qle_bool (1 # 2) (consistency_score cc)) then [rec_poor] else [] in
  let r_val :=
    if validation_possible v then
      app (if Nat.ltb 0 (summary_get missing_rules_count v)
           then [rec_missing (summary_get missing_rules_count v)] else [])
          (if Nat.ltb 0 (summary_get unexpected_rules_count v)
           then [rec_unexpected (summary_get unexpected_rules_count v)] else [])
    else [] in
  let recs := app r_snat (app r_lrp (app r_cons r_val)) in
  match recs with [] => [rec_ok] | _ => recs end.

(** The ["recommendations"] entry of [analyze_node_rules], from the two
    rule commands' outputs and the EgressIP context; [None] when the
    analysis raises (see [analyze_node_rules]). *)
Definition node_recommendations (snat_out lrp_out : option string)
    (ctx : egressip_context) : option (list string) :=
  let snat := get_egressip_snat_rules snat_out in
  let lrp := get_egressip_lrp_rules lrp_out in
  match analyze_egressip_lrp_rules lrp with
  | Some la =>
      Some (generate_egressip_recommendations (analyze_egressip_snat_rules snat) la
              (check_egressip_rule_consistency snat lrp)
              (validate_rules_against_egressips snat ctx))
  | None => None
  end.

(* ------------------------------------------------------------------ *)
(** ** The ["priority_stats"] entry of [_analyze_egressip_lrp_rules] *)

Record priority_stats := {
  ps_min : Z;
  ps_max : Z;
  ps_unique_count : nat
}.

Definition priority_stats_of (priorities : list Z) : priority_stats :=
  match priorities with
  | [] => {| ps_min := 0; ps_max := 0; ps_unique_count := 0 |}
  | p :: ps => {| ps_min := fold_left Z.min ps p;
                  ps_max := fold_left Z.max ps p;
                  ps_unique_count := size (list_to_set priorities : gset Z) |}
  end.

(* ------------------------------------------------------------------ *)
(** ** [_analyze_egressip_rule_changes] and
    [_assess_egressip_rule_stability] *)

(** One entry of a [snapshot_changes] dict, in the order the code inserts
    them: a count change (key, from, to, timestamp) or a content change
    (key, timestamp). *)
Inductive change_entry :=
| CountChange (key : string) (from to : nat) (ts : string)
| ContentChange (key : string) (ts : string).

Definition count_change (key : string) (f : snapshot -> nat) (p c : snapshot)
    : list change_entry :=
  if Nat.eqb (f p) (f c) then [] else [CountChange key (f p) (f c) (timestamp c)].

Definition content_change (key : string) (f : snapshot -> Z) (p c : snapshot)
    : list change_entry :=
  if Z.eqb (f p) (f c) then [] else [ContentChange key (timestamp c)].

Definition snapshot_changes (p c : snapshot) : list change_entry :=
  app (count_change "snat_count_change" snat_count p c)
  (app (count_change "lrp_count_change" lrp_count p c)
  (app (count_change "egressip_snat_count_change" egressip_snat_count p c)
  (app (count_change "egressip_lrp_count_change" egressip_lrp_count p c)
  (app (content_change "snat_content_change" snat_rules_hash p c)
       (content_change "lrp_content_change" lrp_rules_hash p c))))).

(** [for i in range(1, len(snapshots))], keeping the non-empty dicts. *)
Fixpoint changes_of (l : list snapshot) : list (list change_entry) :=
  match l with
  | p :: ((c :: _) as r) =>
      match snapshot_changes p c with
      | [] => changes_of r
      | sc => sc :: changes_of r
      end
  | _ => []
  end.

Inductive change_analysis :=
| InsufficientSnapshots
| ChangeAnalysis (changes_detected : bool) (total_change_events : nat)
                 (changes : list (list change_entry)).

Definition analyze_egressip_rule_changes (snapshots : list snapshot) : change_analysis :=
  if Nat.ltb (length snapshots) 2 then InsufficientSnapshots
  else let changes := changes_of snapshots in
       ChangeAnalysis (Nat.ltb 0 (length changes)) (length changes) changes.

Record stability_assessment := {
  stab_stability : string;
  stab_assessment : string;
  stab_confidence : string
}.

Definition assess_egressip_rule_stability (ca : change_analysis) : stability_assessment :=
  match ca with
  | ChangeAnalysis true change_count _ =>
      if Nat.leb change_count 2 then
        {| stab_stability := "mostly_stable";
           stab_assessment := "Minor EgressIP changes detected (" ++ pretty change_count ++ " events)";
           stab_confidence := "medium" |}
      else
        {| stab_stability := "unstable";
           stab_assessment := "Frequent EgressIP rule changes detected (" ++ pretty change_count ++ " events)";
           stab_confidence := "high" |}
  | _ =>
      {| stab_stability := "stable";
         stab_assessment := "No EgressIP rule changes detected during monitoring period";
         stab_confidence := "high" |}
  end.

(** The snapshot [s] as taken at another time [ts]. *)
Definition with_timestamp (s : snapshot) (ts : string) : snapshot :=
  {| timestamp := ts; snat_count := snat_count s; lrp_count := lrp_count s;
     egressip_snat_count := egressip_snat_count s;
     egressip_lrp_count := egressip_lrp_count s;
     snat_rules_hash := snat_rules_hash s; lrp_rules_hash := lrp_rules_hash s |}.

(* ------------------------------------------------------------------ *)
(** ** [compare_egressip_rules_across_nodes] and
    [_generate_multi_node_egressip_recommendations] *)

Definition multi_rec_count_mismatch : string :=
  "Rule count mismatch detected across nodes - verify EgressIP distribution".
Definition multi_rec_missing (node : string) : string :=
  "Missing SNAT IPs on " ++ node ++ " - check EgressIP assignment".
Definition multi_rec_ok : string :=
  "EgressIP rules are consistent across all analyzed nodes".

Definition generate_multi_node_egressip_recommendations (incs : list inconsistency)
    : list string :=
  app (map (fun i => match i with
                     | RuleCountMismatch _ => multi_rec_count_mismatch
                     | MissingSnatIps n _ => multi_rec_missing n
                     end) incs)
      (match incs with [] => [multi_rec_ok] | _ => [] end).

Record multi_node_report := {
  mn_inconsistencies : list inconsistency;
  mn_overall_consistency : bool;
  mn_recommendations : list string
}.

Definition compare_egressip_rules_report (nas : list (string * node_result))
    : multi_node_report :=
  let incs := compare_egressip_rules_across_nodes nas in
  {| mn_inconsistencies := incs;
     mn_overall_consistency := Nat.eqb (length incs) 0;
     mn_recommendations := generate_multi_node_egressip_recommendations incs |}.

Definition node_succeeded (na : string * node_result) : bool :=
  match snd na with NodeSuccess _ => true | NodeError _ => false end.

(* ------------------------------------------------------------------ *)
(** ** [_get_egressip_ovn_database_info] *)

(** [s[n:]] *)
Fixpoint str_drop (n : nat) (s : string) : string :=
  match n, s with
  | O, _ => s
  | S _, EmptyString => EmptyString
  | S n', String _ r => str_drop n' r
  end.

(** [s.count(sub)] for a non-empty [sub]: non-overlapping occurrences,
    scanning left to right; [fuel] is the length of [s]. *)
Fixpoint str_count_go (fuel : nat) (sub s : string) : nat :=
  match fuel with
  | O => 0
  | S f =>
      match s with
      | EmptyString => 0
      | String _ r =>
          if String.prefix sub s then S (str_count_go f sub (str_drop (String.length sub) s))
          else str_count_go f sub r
      end
  end.

Definition str_count (sub s : string) : nat := str_count_go (String.length s) sub s.

Record ovn_database_info := {
  odb_output_sample : string;
  odb_line_count : nat;
  odb_contains_router_info : bool;
  odb_egressip_references : nat
}.

Inductive ovn_database_result :=
| DbAvailable (info : ovn_database_info)
| DbUnavailable (error : string).

(** [inl stdout] when [ovn-nbctl show] exits with 0, [inr error] when it
    fails (its stderr) or raises (the exception text). *)
Definition get_egressip_ovn_database_info (run : string + string) : ovn_database_result :=
  match run with
  | inl output =>
      DbAvailable {| odb_output_sample := String.substring 0 1000 output;
                     odb_line_count := length (Py.split_nl output);
                     odb_contains_router_info := Py.contains "ovn_cluster_router" (Py.lower output);
                     odb_egressip_references := str_count "egress" (Py.lower output) |}
  | inr err => DbUnavailable err
  end.

(** Number of ['\n'] characters of a string. *)
Fixpoint newlines (s : string) : nat :=
  match s with
  | EmptyString => 0
  | String c r => (if Ascii.eqb c "010"%char then 1 else 0) + newlines r
  end.

(* ------------------------------------------------------------------ *)
(** ** [re.fullmatch] of the IPv4 pattern *)

Definition is_ipv4 (s : string) : bool :=
  match IpRegex.ipv4 s (fun r => if String.eqb r "" then Some r else None) with
  | Some _ => true
  | None => false
  end.

(* ------------------------------------------------------------------ *)
(** ** Shape of a parsed LRP rule and the recommendation texts *)

(** What [_parse_egressip_lrp_rule] guarantees of a parsed rule: a
    non-empty priority and an action with at least one word, so that
    [rule["action"].split()[0]] never fails in the analysis. *)
Definition lrp_well_formed (r : lrp_rule) : Prop :=
  match r with
  | LrpParsed p _ a _ _ => p <> "" /\ exists w ws, Py.split_ws a = w :: ws
  | LrpUnparsed _ => True
  end.

(** Two distinct recommendation texts are different strings. *)
Ltac msg_neq H :=
  cbv [rec_no_snat rec_snat_parse rec_snat_unrelated rec_no_lrp rec_lrp_parse
       rec_lrp_unrelated rec_poor rec_missing rec_unexpected rec_ok String.append] in H;
  discriminate H.

(* ================================================================== *)
(** * Tests on concrete inputs *)

(** [int()] refuses more than 4300 digits. *)
Example parse_digit_limit_ex :
  PyInt.parse (String.concat "" (repeat "1" 4301)) = None
  /\ PyInt.parse (String.concat "" (repeat "1" 4300)) <> None.
Proof. split; [vm_compute; reflexivity | vm_compute; discriminate]. Qed.

(** The float [1.2] is the rational 5404319552844595 / 2^52. *)
Example to_Q_ex :
  Trend.to_Q (nth 2 Trend.rounding_series PrimFloat.zero) = 5404319552844595 # 4503599627370496.
Proof. vm_compute. reflexivity. Qed.

Example parse_snat_ex :
  parse_egressip_snat_rule "snat 10.0.0.5 192.168.1.10 port1"
  = SnatParsed "10.0.0.5" "192.168.1.10" "port1" "snat 10.0.0.5 192.168.1.10 port1" true.
Proof. vm_compute. reflexivity. Qed.

Example parse_lrp_ex :
  parse_egressip_lrp_rule "100 ip4.src==192.168.1.10 reroute 10.0.0.5"
  = LrpParsed "100" "ip4.src==192.168.1.10" "reroute 10.0.0.5"
      "100 ip4.src==192.168.1.10 reroute 10.0.0.5" true.
Proof. vm_compute. reflexivity. Qed.

Example findall_ex :
  IpRegex.findall "ip4.src==192.168.1.10 reroute 10.0.0.5 x1.2.3.4 1.2.3.4567"
  = ["192.168.1.10"; "10.0.0.5"].
Proof. vm_compute. reflexivity. Qed.

(* ================================================================== *)
(** * Properties *)

(** ** Python's ordering on [str] is a total order *)

Module StrOrder.

Lemma compare_le_trans (a b c : string) :
  String.compare a b <> Gt -> String.compare b c <> Gt -> String.compare a c <> Gt.
Proof.
  revert b c.
  induction a as [|x a IH]; intros [|y b] [|z c]; simpl; try congruence.
  unfold Ascii.compare.
  destruct (N.compare_spec (N_of_ascii x) (N_of_ascii y)) as [Hxy|Hxy|Hxy];
  destruct (N.compare_spec (N_of_ascii y) (N_of_ascii z)) as [Hyz|Hyz|Hyz];
  destruct (N.compare_spec (N_of_ascii x) (N_of_ascii z)) as [Hxz|Hxz|Hxz];
  intros H1 H2; try congruence; try lia.
  apply (IH b c); assumption.
Qed.

#[global] Instance str_le_transitive : Transitive PyStr.str_le.
Proof.
  intros a b c. unfold PyStr.str_le, String.leb.
  pose proof (compare_le_trans a b c) as H.
  destruct (String.compare a b), (String.compare b c), (String.compare a c);
    intros; try congruence; exfalso; apply H; congruence.
Qed.

#[global] Instance str_le_antisymm : AntiSymm (=) PyStr.str_le.
Proof. intros a b H1 H2. exact (String.leb_antisym a b H1 H2). Qed.

#[global] Instance str_le_total : Total PyStr.str_le.
Proof. intros a b. exact (String.leb_total a b). Qed.

(** [sorted] depends only on the multiset of its input. *)
Lemma sorted_perm (l1 l2 : list string) :
  l1 ≡ₚ l2 -> PyStr.sorted l1 = PyStr.sorted l2.
Proof.
  intros Hp. unfold PyStr.sorted.
  apply (Sorted_unique PyStr.str_le).
  - apply (Sorted_merge_sort PyStr.str_le).
  - apply (Sorted_merge_sort PyStr.str_le).
  - rewrite (merge_sort_Permutation PyStr.str_le l1), (merge_sort_Permutation PyStr.str_le l2).
    exact Hp.
Qed.

End StrOrder.

(** ** Permutations of the command output lines *)

Lemma count_perm {A} (p : A -> bool) (l1 l2 : list A) :
  l1 ≡ₚ l2 -> count p l1 = count p l2.
Proof.
  intros Hp. unfold count. apply Permutation_length.
  apply filter_Permutation. exact Hp.
Qed.

Lemma snat_rules_of_lines_perm (l1 l2 : list string) :
  l1 ≡ₚ l2 -> snat_rules_of_lines l1 ≡ₚ snat_rules_of_lines l2.
Proof.
  intros Hp. unfold snat_rules_of_lines.
  apply Permutation_map, filter_Permutation, Permutation_map, Hp.
Qed.

Lemma lrp_rules_of_lines_perm (l1 l2 : list string) :
  l1 ≡ₚ l2 -> lrp_rules_of_lines l1 ≡ₚ lrp_rules_of_lines l2.
Proof.
  intros Hp. unfold lrp_rules_of_lines.
  apply Permutation_map, filter_Permutation, Permutation_map, Hp.
Qed.

Lemma rules_hash_perm (key : hash_key) (l1 l2 : list string) :
  l1 ≡ₚ l2 -> rules_hash key l1 = rules_hash key l2.
Proof. intros Hp. unfold rules_hash. rewrite (StrOrder.sorted_perm l1 l2 Hp). reflexivity. Qed.

Lemma snapshot_of_rules_perm (key : hash_key) (now : string)
    (s1 s2 : list snat_rule) (r1 r2 : list lrp_rule) :
  s1 ≡ₚ s2 -> r1 ≡ₚ r2 -> snapshot_of_rules key now s1 r1 = snapshot_of_rules key now s2 r2.
Proof.
  intros Hs Hr. unfold snapshot_of_rules.
  rewrite (Permutation_length Hs), (Permutation_length Hr),
          (count_perm _ _ _ Hs), (count_perm _ _ _ Hr),
          (rules_hash_perm key _ _ (Permutation_map snat_raw Hs)),
          (rules_hash_perm key _ _ (Permutation_map lrp_raw Hr)).
  reflexivity.
Qed.

(** ** Word splitting facts used for the LRP parser *)

Lemma lstrip_head (s r : string) (c : ascii) :
  Py.lstrip s = String c r -> Py.is_space c = false.
Proof.
  induction s as [|x s IH]; simpl; [discriminate|].
  destruct (Py.is_space x) eqn:E; [exact IH|].
  intros H. inversion H; subst. exact E.
Qed.

Lemma split_ws_aux_nonempty (s cur : string) :
  cur <> "" -> Py.split_ws_aux s cur <> [].
Proof.
  revert cur. induction s as [|c s IH]; intros cur Hc; simpl.
  - destruct (String.eqb cur "") eqn:E.
    + apply String.eqb_eq in E. contradiction.
    + discriminate.
  - destruct (Py.is_space c).
    + destruct (String.eqb cur "") eqn:E.
      * apply String.eqb_eq in E. contradiction.
      * discriminate.
    + apply IH. destruct cur; simpl; discriminate.
Qed.

Lemma split_ws_cons_nonspace (c : ascii) (r : string) :
  Py.is_space c = false -> exists w ws, Py.split_ws (String c r) = w :: ws.
Proof.
  intros Hc. unfold Py.split_ws. simpl. rewrite Hc.
  destruct (Py.split_ws_aux r (String c EmptyString)) as [|w ws] eqn:E.
  - exfalso. exact (split_ws_aux_nonempty r (String c EmptyString) ltac:(discriminate) E).
  - eauto.
Qed.

Lemma split_ws_max2_three (s p m a : string) :
  Py.split_ws_max2 s = [p; m; a] ->
  p <> "" /\ exists w ws, Py.split_ws a = w :: ws.
Proof.
  unfold Py.split_ws_max2.
  destruct (String.eqb (Py.lstrip s) "") eqn:E1; [discriminate|].
  destruct (Py.take_word (Py.lstrip s)) as [w1 r1] eqn:T1.
  destruct (String.eqb (Py.lstrip r1) "") eqn:E2; [discriminate|].
  destruct (Py.take_word (Py.lstrip r1)) as [w2 r2] eqn:T2.
  destruct (String.eqb (Py.lstrip r2) "") eqn:E3; [discriminate|].
  intros H. inversion H; subst p m a. split.
  - destruct (Py.lstrip s) as [|c r] eqn:L; [discriminate|].
    pose proof (lstrip_head s r c L) as Hc.
    simpl in T1. rewrite Hc in T1.
    destruct (Py.take_word r) as [w rest]. inversion T1. discriminate.
  - destruct (Py.lstrip r2) as [|c r] eqn:L; [discriminate|].
    apply split_ws_cons_nonspace. exact (lstrip_head r2 r c L).
Qed.

(** ** Sets of the consistency check *)

Lemma Qle_bool_false (x y : Q) : Qle_bool x y = false -> (y < x)%Q.
Proof.
  intros H. apply Qnot_le_lt. intros C. apply Qle_bool_iff in C. congruence.
Qed.

Lemma relevant_subset_size (a b : gset string) : size (a ∩ b) <= size a.
Proof. apply subseteq_size. set_solver. Qed.

(* ================================================================== *)
(** * The claims *)

(** ** RuleParser *)

(** C9: a SNAT line with fewer than four whitespace-separated tokens, or
    whose first token lower-cased is not ["snat"], is parsed into the
    failure record carrying the input line verbatim as its raw text; the
    parser is a total function (it never raises). *)
Theorem snat_parse_failure_keeps_raw (line : string) :
  ((length (Py.split_ws (Py.strip line)) < 4)%nat
   \/ Py.lower (hd "" (Py.split_ws (Py.strip line))) <> "snat") ->
  parse_egressip_snat_rule line = SnatUnparsed line
  /\ snat_parsed_successfully (parse_egressip_snat_rule line) = false
  /\ snat_raw (parse_egressip_snat_rule line) = line.
Proof.
  unfold parse_egressip_snat_rule.
  destruct (Py.split_ws (Py.strip line)) as [|p0 [|p1 [|p2 [|p3 rest]]]];
    simpl; intros H; auto.
  destruct H as [H|H]; [lia|].
  destruct (String.eqb (Py.lower p0) "snat") eqn:E.
  - apply String.eqb_eq in E. contradiction.
  - auto.
Qed.

Lemma snat_parse_failure_keeps_raw_witness :
  parse_egressip_snat_rule "snat 10.0.0.5" = SnatUnparsed "snat 10.0.0.5"
  /\ snat_parsed_successfully (parse_egressip_snat_rule "snat 10.0.0.5") = false
  /\ snat_raw (parse_egressip_snat_rule "snat 10.0.0.5") = "snat 10.0.0.5".
Proof.
  apply (snat_parse_failure_keeps_raw "snat 10.0.0.5").
  left. vm_compute. lia.
Defined.

(** C3 (as stated, refuted): a policy line with three segments whose
    priority is not an integer is still parsed successfully. *)
Lemma lrp_noninteger_priority_parses :
  ~ (forall line : string,
       (3 <= length (Py.split_ws_max2 (Py.strip line)))%nat ->
       PyInt.parse (hd "" (Py.split_ws_max2 (Py.strip line))) = None ->
       lrp_parsed_successfully (parse_egressip_lrp_rule line) = false).
Proof.
  intros H.
  pose proof (H "high ip4.src==10.0.0.1 drop"
                ltac:(vm_compute; lia) ltac:(vm_compute; reflexivity)) as E.
  vm_compute in E. discriminate.
Qed.

(** ** ConsistencyValidator *)

(** C1 (as stated, refuted): with both rule lists empty, both relevant-IP
    sets are empty and the score is the number 0, not a distinct
    "undetermined" value. *)
Lemma consistency_score_zero_when_undetermined :
  ~ (forall (s : list snat_rule) (l : list lrp_rule),
       (relevant_snat_ips s = ∅ \/ lrp_ip_references l = ∅) ->
       consistency_score (check_egressip_rule_consistency s l) <> 0%Q).
Proof.
  intros H. apply (H [] []); [left; reflexivity | reflexivity].
Qed.

(** C1 (amended): when either relevant-IP set is empty the score keeps
    its initial value 0, the correlation label stays ["unknown"] (none of
    good, moderate, poor) and no issue is reported. *)
Theorem consistency_unknown_when_a_set_is_empty
    (s : list snat_rule) (l : list lrp_rule) :
  (relevant_snat_ips s = ∅ \/ lrp_ip_references l = ∅) ->
  consistency_score (check_egressip_rule_consistency s l) = 0%Q
  /\ snat_lrp_correlation (check_egressip_rule_consistency s l) = "unknown"
  /\ issues_found (check_egressip_rule_consistency s l) = [].
Proof.
  intros H. unfold check_egressip_rule_consistency.
  repeat case_bool_decide; simpl; auto.
  destruct H as [H|H]; contradiction.
Qed.

Lemma consistency_unknown_when_a_set_is_empty_witness :
  relevant_snat_ips [] = ∅
  /\ consistency_score (check_egressip_rule_consistency [] []) = 0%Q
  /\ snat_lrp_correlation (check_egressip_rule_consistency [] []) = "unknown"
  /\ issues_found (check_egressip_rule_consistency [] []) = [].
Proof.
  split; [reflexivity|].
  apply consistency_unknown_when_a_set_is_empty. left. reflexivity.
Defined.

(** C5: when both relevant-IP sets A (SNAT) and B (LRP) are non-empty, the
    score is |A ∩ B| / |A|, lies in [0,1], and the label is "good" above
    0.8, "moderate" in (0.5, 0.8], and otherwise "poor" with the
    low-correlation issue appended to the (initially empty) issue list. *)
Theorem consistency_score_and_label (s : list snat_rule) (l : list lrp_rule) :
  relevant_snat_ips s ≠ ∅ -> lrp_ip_references l ≠ ∅ ->
  consistency_score (check_egressip_rule_consistency s l)
    = (inject_Z (Z.of_nat (size (relevant_snat_ips s ∩ lrp_ip_references l)))
       / inject_Z (Z.of_nat (size (relevant_snat_ips s))))%Q
  /\ (0 <= consistency_score (check_egressip_rule_consistency s l) <= 1)%Q
  /\ ((4 # 5) < consistency_score (check_egressip_rule_consistency s l) ->
      snat_lrp_correlation (check_egressip_rule_consistency s l) = "good"
      /\ issues_found (check_egressip_rule_consistency s l) = [])%Q
  /\ ((1 # 2) < consistency_score (check_egressip_rule_consistency s l) <= (4 # 5) ->
      snat_lrp_correlation (check_egressip_rule_consistency s l) = "moderate"
      /\ issues_found (check_egressip_rule_consistency s l) = [])%Q
  /\ (consistency_score (check_egressip_rule_consistency s l) <= (1 # 2) ->
      snat_lrp_correlation (check_egressip_rule_consistency s l) = "poor"
      /\ issues_found (check_egressip_rule_consistency s l) = [low_correlation_issue])%Q.
Proof.
  intros HA HB.
  set (A := relevant_snat_ips s) in *. set (B := lrp_ip_references l) in *.
  assert (HszA : size A <> 0).
  { intros Hs. apply HA. apply leibniz_equiv. apply size_empty_inv. exact Hs. }
  pose proof (relevant_subset_size A B) as Hsub.
  set (r := (inject_Z (Z.of_nat (size (A ∩ B))) / inject_Z (Z.of_nat (size A)))%Q).
  assert (Hpos : (0 < inject_Z (Z.of_nat (size A)))%Q).
  { unfold Qlt. simpl. lia. }
  assert (Hr : (0 <= r <= 1)%Q).
  { split.
    - apply Qle_shift_div_l; [exact Hpos|]. unfold Qle. simpl. lia.
    - apply Qle_shift_div_r; [exact Hpos|]. unfold Qle. simpl. lia. }
  unfold check_egressip_rule_consistency. fold A B.
  case_bool_decide as HA'; [|contradiction]. case_bool_decide as HB'; [|contradiction].
  clear HA' HB'.
  simpl. fold r.
  destruct (Qle_bool r (4 # 5)) eqn:E1; destruct (Qle_bool r (1 # 2)) eqn:E2;
    simpl; (split; [reflexivity|]); (split; [exact Hr|]).
  - apply Qle_bool_iff in E1, E2.
    refine (conj _ (conj _ _)); intros Hc.
    + exfalso. exact (Qlt_not_le _ _ Hc E1).
    + exfalso. destruct Hc as [Hc _]. exact (Qlt_not_le _ _ Hc E2).
    + auto.
  - apply Qle_bool_iff in E1. apply Qle_bool_false in E2.
    refine (conj _ (conj _ _)); intros Hc.
    + exfalso. exact (Qlt_not_le _ _ Hc E1).
    + auto.
    + exfalso. exact (Qlt_not_le _ _ E2 Hc).
  - apply Qle_bool_false in E1. apply Qle_bool_iff in E2.
    exfalso. apply (Qlt_not_le _ _ E1). apply (Qle_trans _ _ _ E2). unfold Qle. simpl. lia.
  - apply Qle_bool_false in E1, E2.
    refine (conj _ (conj _ _)); intros Hc.
    + auto.
    + exfalso. destruct Hc as [_ Hc]. exact (Qlt_not_le _ _ E1 Hc).
    + exfalso. apply (Qlt_not_le _ _ E1). apply (Qle_trans _ _ _ Hc). unfold Qle. simpl. lia.
Qed.

Lemma consistency_score_and_label_witness :
  relevant_snat_ips scenarioA_snat ≠ ∅
  /\ lrp_ip_references scenarioA_lrp ≠ ∅
  /\ snat_lrp_correlation (check_egressip_rule_consistency scenarioA_snat scenarioA_lrp)
     = "good".
Proof.
  assert (HA : relevant_snat_ips scenarioA_snat ≠ ∅) by (vm_compute; discriminate).
  assert (HB : lrp_ip_references scenarioA_lrp ≠ ∅) by (vm_compute; discriminate).
  split; [exact HA|]. split; [exact HB|].
  destruct (consistency_score_and_label scenarioA_snat scenarioA_lrp HA HB)
    as [_ [_ [Hgood _]]].
  apply Hgood. vm_compute. reflexivity.
Defined.

(** ** SnapshotMonitor *)

(** C2 (as stated, refuted): two process runs hash the same (empty) rule
    multiset with different per-process keys, e.g. the key (0,0) of
    PYTHONHASHSEED=0 and the key (1,0), and get different hash values. *)
Lemma snapshot_hash_differs_across_runs :
  ~ (forall (k1 k2 : hash_key) (now : string) (l1 l2 m : list string),
       l1 ≡ₚ l2 ->
       snat_rules_hash (snapshot_of_lines k1 now l1 m)
       = snat_rules_hash (snapshot_of_lines k2 now l2 m)).
Proof.
  intros H.
  pose proof (H (0, 0)%Z (1, 0)%Z "" [] [] [] ltac:(reflexivity)) as E.
  vm_compute in E. discriminate.
Qed.

(** C2 (amended): with the hash key of one process fixed, the snapshot
    (both counts and both hashes) computed from the output lines is
    invariant under any permutation of the SNAT lines and of the LRP
    lines. *)
Theorem snapshot_invariant_under_line_permutation
    (key : hash_key) (now : string) (l1 l2 m1 m2 : list string) :
  l1 ≡ₚ l2 -> m1 ≡ₚ m2 ->
  snapshot_of_lines key now l1 m1 = snapshot_of_lines key now l2 m2.
Proof.
  intros Hl Hm. unfold snapshot_of_lines.
  apply snapshot_of_rules_perm.
  - apply snat_rules_of_lines_perm. exact Hl.
  - apply lrp_rules_of_lines_perm. exact Hm.
Qed.

Lemma snapshot_invariant_under_line_permutation_witness :
  ["snat 10.0.0.6 10.128.0.7 p2"; "snat 10.0.0.5 10.128.0.5 p1"]
    ≡ₚ ["snat 10.0.0.5 10.128.0.5 p1"; "snat 10.0.0.6 10.128.0.7 p2"]
  /\ snapshot_of_lines (0, 0)%Z "" ["snat 10.0.0.6 10.128.0.7 p2"; "snat 10.0.0.5 10.128.0.5 p1"] []
     = snapshot_of_lines (0, 0)%Z "" ["snat 10.0.0.5 10.128.0.5 p1"; "snat 10.0.0.6 10.128.0.7 p2"] [].
Proof.
  assert (Hp : ["snat 10.0.0.6 10.128.0.7 p2"; "snat 10.0.0.5 10.128.0.5 p1"]
                 ≡ₚ ["snat 10.0.0.5 10.128.0.5 p1"; "snat 10.0.0.6 10.128.0.7 p2"])
    by (apply (bool_decide_unpack _); vm_compute; reflexivity).
  split; [exact Hp|].
  apply snapshot_invariant_under_line_permutation; [exact Hp | reflexivity].
Defined.

(** The state of the session only grows: later steps append to the list
    of snapshots already taken. *)
Lemma checks_extends (e : Monitor.env) (i n : nat) (s : list snapshot) :
  exists ext, snd (Monitor.checks e i n s) = app s ext.
Proof.
  revert i s. induction n as [|n IH]; intros i s; simpl.
  - exists []. rewrite app_nil_r. reflexivity.
  - unfold mbind, Monitor.M_bind, Monitor.bind, Monitor.sleep.
    destruct (Monitor.cancelled_at e) as [j|].
    + destruct (Nat.eqb i j).
      * exists []. simpl. rewrite app_nil_r. reflexivity.
      * simpl. destruct (IH (S i) (app s [Monitor.take e (S i)])) as [ext Hext].
        exists (Monitor.take e (S i) :: ext).
        unfold Monitor.append. simpl. rewrite Hext, <- app_assoc. reflexivity.
    + simpl. destruct (IH (S i) (app s [Monitor.take e (S i)])) as [ext Hext].
      exists (Monitor.take e (S i) :: ext).
      unfold Monitor.append. simpl. rewrite Hext, <- app_assoc. reflexivity.
Qed.

Lemma body_starts_with_initial (e : Monitor.env) (d : Z) :
  exists rest, snd (Monitor.body e d []) = Monitor.take e 0 :: rest.
Proof.
  unfold Monitor.body, mbind, Monitor.M_bind, Monitor.bind, Monitor.append, Monitor.floordiv.
  simpl. destruct (Z.min 30 (d / 10) =? 0)%Z.
  - exists []. reflexivity.
  - unfold Monitor.ret. apply checks_extends.
Qed.

(** C10: for [0 <= duration_seconds < 10] the check interval
    [min(30, duration_seconds // 10)] is 0, the division by it raises
    [ZeroDivisionError] after the initial snapshot was taken, and the
    handler returns an error result that carries no snapshot. *)
Theorem monitor_short_duration_zero_division
    (e : Monitor.env) (node : string) (d : Z) :
  (0 <= d < 10)%Z ->
  Z.min 30 (d / 10) = 0%Z
  /\ Monitor.body e d [] = (inl Monitor.ZeroDivisionError, [Monitor.take e 0])
  /\ Monitor.monitor_egressip_rule_changes e node d
     = Monitor.Returned (Monitor.MonError node "integer division or modulo by zero")
  /\ Monitor.returned_snapshots (Monitor.monitor_egressip_rule_changes e node d) = [].
Proof.
  intros Hd.
  assert (Hi : Z.min 30 (d / 10) = 0%Z).
  { rewrite (Z.div_small d 10) by lia. reflexivity. }
  assert (Hb : Monitor.body e d [] = (inl Monitor.ZeroDivisionError, [Monitor.take e 0])).
  { unfold Monitor.body, mbind, Monitor.M_bind, Monitor.bind, Monitor.append,
           Monitor.floordiv.
    simpl. rewrite Hi. reflexivity. }
  split; [exact Hi|]. split; [exact Hb|].
  unfold Monitor.monitor_egressip_rule_changes. rewrite Hb. simpl. auto.
Qed.

Lemma monitor_short_duration_zero_division_witness :
  (0 <= 5 < 10)%Z
  /\ Monitor.monitor_egressip_rule_changes quiet_env "worker-0" 5
     = Monitor.Returned (Monitor.MonError "worker-0" "integer division or modulo by zero").
Proof.
  split; [lia|].
  apply (monitor_short_duration_zero_division quiet_env "worker-0" 5).
  lia.
Defined.

(** C4 (as stated, refuted): a 5-second session takes its initial
    snapshot, then fails, and the result hands back no snapshot. *)
Lemma monitor_failure_discards_snapshots :
  ~ (forall (e : Monitor.env) (node : string) (d : Z),
       (exists ex, fst (Monitor.body e d []) = inl ex) ->
       forall x, In x (snd (Monitor.body e d [])) ->
       In x (Monitor.returned_snapshots (Monitor.monitor_egressip_rule_changes e node d))).
Proof.
  intros H.
  pose proof (H quiet_env "worker-0" 5%Z
                ltac:(exists Monitor.ZeroDivisionError; vm_compute; reflexivity)
                (snapshot_of_rules (0, 0)%Z "" [] [])
                ltac:(vm_compute; left; reflexivity)) as E.
  vm_compute in E. exact E.
Qed.

(** C4 (amended): whenever the session body raises, the snapshots already
    taken (at least the initial one) are not handed back: an [Exception]
    (such as [ZeroDivisionError]) yields the error record of the handler,
    a [CancelledError] escapes the handler and the caller gets no result;
    snapshots are returned exactly when the body completes. *)
Theorem monitor_failure_returns_no_snapshots
    (e : Monitor.env) (node : string) (d : Z) :
  (exists rest, snd (Monitor.body e d []) = Monitor.take e 0 :: rest)
  /\ match Monitor.body e d [] with
     | (inl ex, _) =>
         Monitor.monitor_egressip_rule_changes e node d
           = (if Monitor.is_exception ex
              then Monitor.Returned (Monitor.MonError node (Monitor.exc_message ex))
              else Monitor.Propagated ex)
         /\ Monitor.returned_snapshots (Monitor.monitor_egressip_rule_changes e node d) = []
     | (inr _, snaps) =>
         Monitor.returned_snapshots (Monitor.monitor_egressip_rule_changes e node d) = snaps
     end.
Proof.
  split; [apply body_starts_with_initial|].
  unfold Monitor.monitor_egressip_rule_changes.
  destruct (Monitor.body e d []) as [[ex|u] snaps].
  - destruct (Monitor.is_exception ex); simpl; auto.
  - reflexivity.
Qed.

(** ** Validation against the EgressIP objects *)

(** C7 (as stated, refuted): an object declaring 10.0.0.9 in its spec but
    with no status item, and no SNAT rule: the declared IP is absent from
    the NAT rules, yet [missing] is empty and the validation passes. *)
Lemma validation_ignores_declared_ips :
  declared_ips [unassigned_obj] ∖ relevant_snat_ips [] = {[ "10.0.0.9" ]}
  /\ missing_snat_rules (validate_rules_against_egressips [] (CtxAvailable [unassigned_obj])) = ∅
  /\ option_map validation_passed
       (v_summary (validate_rules_against_egressips [] (CtxAvailable [unassigned_obj])))
     = Some true.
Proof. vm_compute. auto. Qed.

(** C7 (amended): with the EgressIP context available, [missing] is the
    set of IPs in the objects' status items ([total_assigned_ips]) absent
    from the relevant parsed SNAT external IPs, [unexpected] is the
    converse difference, and [validation_passed] holds iff both are empty;
    with the context unavailable, no validation is made and no summary is
    produced. *)
Theorem validation_against_assigned_ips
    (snat : list snat_rule) (objs : list egressip_obj) (err : string) :
  missing_snat_rules (validate_rules_against_egressips snat (CtxAvailable objs))
    = total_assigned_ips objs ∖ relevant_snat_ips snat
  /\ unexpected_snat_rules (validate_rules_against_egressips snat (CtxAvailable objs))
    = relevant_snat_ips snat ∖ total_assigned_ips objs
  /\ (exists sm,
        v_summary (validate_rules_against_egressips snat (CtxAvailable objs)) = Some sm
        /\ (validation_passed sm = true <->
            missing_snat_rules (validate_rules_against_egressips snat (CtxAvailable objs)) = ∅
            /\ unexpected_snat_rules (validate_rules_against_egressips snat (CtxAvailable objs))
               = ∅))
  /\ validation_possible (validate_rules_against_egressips snat (CtxUnavailable err)) = false
  /\ v_summary (validate_rules_against_egressips snat (CtxUnavailable err)) = None.
Proof.
  simpl. split; [reflexivity|]. split; [reflexivity|].
  split; [|auto].
  eexists. split; [reflexivity|]. simpl.
  rewrite andb_true_iff, !Nat.eqb_eq, !size_empty_iff, <- !leibniz_equiv_iff. reflexivity.
Qed.

(** ** Trend *)

(** C8 (as stated, refuted): the code's direction is not that of the
    exact percent change of the half means. For [-10; -5] the change is
    -50%, "decreasing" by the specification, but the code says "stable"
    because it only computes a change when the first-half mean is
    positive. For [1.0; 1.0; 1.2] the exact change of these values is
    below 10% ("stable"), but the float sum [1.0 + 1.2] rounds up to
    [2.2000000000000002] and the code's percent change is
    [10.000000000000009], so it says "increasing". *)
Lemma trend_differs_from_exact_percent_change :
  Trend.percent_change (map Trend.to_Q Trend.negative_base_series) == (-50) # 1
  /\ Trend.spec_trend (map Trend.to_Q Trend.negative_base_series) = "decreasing"
  /\ Trend.simple_trend Trend.negative_base_series = "stable"
  /\ (Trend.percent_change (map Trend.to_Q Trend.rounding_series) < 10 # 1)%Q
  /\ Trend.spec_trend (map Trend.to_Q Trend.rounding_series) = "stable"
  /\ Trend.simple_trend Trend.rounding_series = "increasing".
Proof. vm_compute. repeat split; reflexivity. Qed.

(** C8 (amended): fewer than two points give "insufficient_data";
    otherwise the series is split at [floor(len/2)] (the second half gets
    the extra element of an odd-length series), each half's mean is its
    Python float sum divided by its length, and, when the first-half mean
    is positive, the direction is that of the binary64 value of
    [(m2 - m1) / m1 * 100] (> 10: increasing, < -10: decreasing, else
    stable); when the first-half mean is not positive the direction is
    "stable". Being computed in floats, it can differ from the exact
    change near +-10%: [1.0; 1.0; 1.2] is "increasing" although its exact
    change is below 10%. The series [10,10,10,20,20] is "increasing". *)
Theorem simple_trend_characterised :
  (forall values : list PrimFloat.float,
     (2 <= length values ->
        length (firstn (Nat.div (length values) 2) values)
        <= length (skipn (Nat.div (length values) 2) values))%nat
     /\ Trend.simple_trend values =
        if Nat.ltb (length values) 2 then "insufficient_data"
        else if PrimFloat.ltb PrimFloat.zero (Trend.fmean (firstn (Nat.div (length values) 2) values))
             then Trend.fdirection_of (Trend.fpercent_change values)
             else "stable")
  /\ Trend.simple_trend Trend.scenario_e = "increasing"
  /\ Trend.simple_trend Trend.rounding_series = "increasing"
  /\ (Trend.percent_change (map Trend.to_Q Trend.rounding_series) < 10 # 1)%Q.
Proof.
  split; [|vm_compute; repeat split; reflexivity].
  intros values.
  set (n := length values).
  assert (Hmid : (Nat.div n 2 <= n)%nat) by (apply Nat.Div0.div_le_upper_bound; lia).
  split.
  { intros H2. rewrite firstn_length_le by exact Hmid. rewrite length_skipn.
    fold n. pose proof (Nat.div_mod n 2 ltac:(lia)). pose proof (Nat.mod_upper_bound n 2 ltac:(lia)).
    lia. }
  unfold Trend.simple_trend, Trend.fpercent_change, Trend.fmean, Trend.fdirection_of. fold n.
  destruct (Nat.ltb n 2) eqn:E; [reflexivity|].
  apply Nat.ltb_ge in E.
  assert (Hpos : Nat.ltb 0 (Nat.div n 2) = true).
  { apply Nat.ltb_lt. apply Nat.div_str_pos. lia. }
  rewrite Hpos.
  rewrite firstn_length_le by exact Hmid. rewrite length_skipn. fold n.
  unfold PrimFloat.zero.
  destruct (PrimFloat.ltb _ (PrimFloat.div (Trend.py_sum (firstn (Nat.div n 2) values)) _));
    reflexivity.
Qed.

(** ** Multi-node comparison *)

Lemma snat_loop_external (rules : list snat_rule) (ext lg : gset string) (iss : list string) :
  (snat_loop rules ext lg iss).1.1 = ext ∪ parsed_snat_ips rules.
Proof.
  revert ext lg iss. induction rules as [|r rs IH]; intros ext lg iss; simpl.
  - set_solver.
  - destruct r as [e l p raw b|raw]; rewrite IH; [|set_solver].
    destruct (String.eqb e ""); set_solver.
Qed.

Lemma analyze_snat_external_ips (rules : list snat_rule) :
  sa_external_ips (analyze_egressip_snat_rules rules) = parsed_snat_ips rules.
Proof.
  unfold analyze_egressip_snat_rules.
  pose proof (snat_loop_external rules ∅ ∅ []) as H.
  destruct (snat_loop rules ∅ ∅ []) as [[ext lg] iss]. simpl in *.
  rewrite H. set_solver.
Qed.

Lemma content_in (nas : list (string * node_result)) (n : string) (ips : gset string) (pr : list Z) :
  In (n, (ips, pr)) (compare_egressip_rule_content nas) <->
  exists r, In (n, NodeSuccess r) nas
            /\ ips = sa_external_ips (nr_snat_analysis r) /\ pr = la_priorities (nr_lrp_analysis r).
Proof.
  unfold compare_egressip_rule_content. rewrite in_flat_map. split.
  - intros [[n' a] [Hin Hx]]. destruct a as [r|err]; simpl in Hx; [|contradiction].
    destruct Hx as [Hx|[]]. inversion Hx; subst. exists r. auto.
  - intros [r [Hin [-> ->]]]. exists (n, NodeSuccess r). simpl. auto.
Qed.

Lemma missing_flag_iff (nas : list (string * node_result)) (n : string) (m : gset string) :
  In (MissingSnatIps n m) (compare_egressip_rules_across_nodes nas) <->
  (1 < length (compare_egressip_rule_content nas))%nat
  /\ exists r, In (n, NodeSuccess r) nas
               /\ m = all_snat_ips (compare_egressip_rule_content nas)
                        ∖ sa_external_ips (nr_snat_analysis r)
               /\ m ≠ ∅.
Proof.
  unfold compare_egressip_rules_across_nodes, identify_egressip_inconsistencies.
  set (content := compare_egressip_rule_content nas).
  rewrite in_app_iff.
  assert (Hl : ~ In (MissingSnatIps n m)
                 (if Nat.ltb 1 (size (list_to_set (map snd (compare_egressip_rule_counts nas))
                                      : gset (nat * nat)))
                  then [RuleCountMismatch (compare_egressip_rule_counts nas)] else [])).
  { destruct (Nat.ltb _ _); simpl; intuition discriminate. }
  destruct (Nat.ltb 1 (length content)) eqn:E.
  - apply Nat.ltb_lt in E. rewrite in_flat_map. split.
    + intros [Hin|[[n' [ips pr]] [Hin Hx]]]; [contradiction|].
      split; [exact E|].
      case_bool_decide as Hm; simpl in Hx; [contradiction|].
      destruct Hx as [Hx|[]]. inversion Hx; subst n' m.
      apply content_in in Hin. destruct Hin as [r [Hr [-> ->]]].
      exists r. auto.
    + intros [_ [r [Hr [Hm Hne]]]]. right.
      exists (n, (sa_external_ips (nr_snat_analysis r), la_priorities (nr_lrp_analysis r))).
      split; [apply content_in; exists r; auto|].
      simpl. fold content. rewrite <- Hm. case_bool_decide; [contradiction|]. simpl. auto.
  - apply Nat.ltb_ge in E. simpl. split.
    + intros [Hin|[]]. contradiction.
    + intros [Hc _]. lia.
Qed.

Lemma nodup_fst_unique {A B} (l : list (A * B)) (k : A) (v1 v2 : B) :
  NoDup (map fst l) -> In (k, v1) l -> In (k, v2) l -> v1 = v2.
Proof.
  induction l as [|[k' v] l IH]; simpl; [contradiction|].
  intros Hnd H1 H2. inversion Hnd as [|? ? Hnotin Hnd']; subst.
  destruct H1 as [H1|H1], H2 as [H2|H2].
  - inversion H1; inversion H2; subst. reflexivity.
  - inversion H1; subst. exfalso. apply Hnotin. apply list_elem_of_In. apply (in_map fst l (k, v2)). exact H2.
  - inversion H2; subst. exfalso. apply Hnotin. apply list_elem_of_In. apply (in_map fst l (k, v1)). exact H1.
  - apply IH; assumption.
Qed.

Lemma all_snat_ips_subseteq (content : list (string * (gset string * list Z))) (x : gset string) :
  (forall n ips pr, In (n, (ips, pr)) content -> ips ⊆ x) -> all_snat_ips content ⊆ x.
Proof.
  induction content as [|[n [ips pr]] c IH]; simpl; intros H; [set_solver|].
  apply union_subseteq. split.
  - apply IH. intros n' ips' pr' Hin. apply (H n' ips' pr'). auto.
  - apply (H n ips pr). auto.
Qed.

(** C6 (as stated, refuted): node1 has one parsed IPv6 SNAT rule, which is
    not EgressIP-related; node2 has none. Both relevant-IP sets are empty,
    so the union of relevant IPs is empty, yet node2 is flagged as missing
    fd00::5: the comparison reads the external IPs of all parsed rules. *)
Lemma comparator_uses_all_parsed_ips :
  relevant_snat_ips (get_egressip_snat_rules (Some "snat fd00::5 fd01::10 port1")) = ∅
  /\ relevant_snat_ips (get_egressip_snat_rules (Some "")) = ∅
  /\ In (MissingSnatIps "node2" {[ "fd00::5" ]}) (compare_egressip_rules_across_nodes ipv6_nodes).
Proof. vm_compute. auto. Qed.

(** C6 (amended): let U be the union, over the nodes whose analysis
    succeeded, of the external IPs of all their successfully parsed SNAT
    rules (EgressIP-related or not). When at least two nodes are compared,
    a node is flagged with missing set M exactly when M = U minus its IPs
    and M is non-empty; a node whose IPs contain those of every other node
    is never flagged; in scenario C node1 is flagged missing 10.0.0.6 and
    node2 is not flagged. *)
Theorem comparator_flags_deficits_to_union (nas : list (string * node_result)) :
  (forall n m,
     In (MissingSnatIps n m) (compare_egressip_rules_across_nodes nas) <->
     (1 < length (compare_egressip_rule_content nas))%nat
     /\ exists r, In (n, NodeSuccess r) nas
                  /\ m = all_snat_ips (compare_egressip_rule_content nas)
                           ∖ sa_external_ips (nr_snat_analysis r)
                  /\ m ≠ ∅)
  /\ (NoDup (map fst nas) ->
      forall n r, In (n, NodeSuccess r) nas ->
      (forall n' r', In (n', NodeSuccess r') nas ->
                     sa_external_ips (nr_snat_analysis r') ⊆ sa_external_ips (nr_snat_analysis r)) ->
      forall m, ~ In (MissingSnatIps n m) (compare_egressip_rules_across_nodes nas))
  /\ (forall snat_out lrp_out r,
        analyze_node_rules snat_out lrp_out = NodeSuccess r ->
        sa_external_ips (nr_snat_analysis r) = parsed_snat_ips (get_egressip_snat_rules snat_out))
  /\ In (MissingSnatIps "node1" {[ "10.0.0.6" ]})
        (compare_egressip_rules_across_nodes scenarioC_nodes)
  /\ (forall m, ~ In (MissingSnatIps "node2" m)
                     (compare_egressip_rules_across_nodes scenarioC_nodes)).
Proof.
  split; [apply missing_flag_iff|].
  split.
  { intros Hnd n r Hin Hsup m Hm.
    apply missing_flag_iff in Hm. destruct Hm as [_ [r0 [Hin0 [Hm Hne]]]].
    assert (Hr : NodeSuccess r0 = NodeSuccess r) by (eapply nodup_fst_unique; eauto).
    inversion Hr; subst r0.
    assert (Hu : all_snat_ips (compare_egressip_rule_content nas)
                 ⊆ sa_external_ips (nr_snat_analysis r)).
    { apply all_snat_ips_subseteq. intros n' ips pr Hc.
      apply content_in in Hc. destruct Hc as [r' [Hr' [-> _]]].
      exact (Hsup n' r' Hr'). }
    apply Hne. rewrite Hm. set_solver. }
  split.
  { intros snat_out lrp_out r. unfold analyze_node_rules.
    destruct (analyze_egressip_lrp_rules _); intros H; inversion H; subst.
    simpl. apply analyze_snat_external_ips. }
  split.
  - vm_compute. auto.
  - intros m. vm_compute. intros [H|[H|[]]]; discriminate.
Qed.

Lemma comparator_flags_deficits_to_union_witness :
  NoDup (map fst scenarioC_nodes)
  /\ (forall m, ~ In (MissingSnatIps "node2" m) (compare_egressip_rules_across_nodes scenarioC_nodes)).
Proof.
  assert (Hnd : NoDup (map fst scenarioC_nodes))
    by (apply (bool_decide_unpack _); vm_compute; reflexivity).
  split; [exact Hnd|].
  destruct (comparator_flags_deficits_to_union scenarioC_nodes) as [_ [Hsup _]].
  intros m.
  destruct (analyze_node_rules (Some (lines_text ["snat 10.0.0.5 192.168.1.10 port1";
                                                 "snat 10.0.0.6 192.168.1.11 port2"]))
                               (Some "")) as [r2|err] eqn:E2.
  2: { vm_compute in E2. discriminate. }
  apply (Hsup Hnd "node2" r2).
  - unfold scenarioC_nodes. rewrite E2. simpl. auto.
  - intros n' r' Hin. unfold scenarioC_nodes in Hin. rewrite E2 in Hin. simpl in Hin.
    vm_compute in E2. injection E2 as E2. subst r2.
    destruct Hin as [Hin|[Hin|[]]]; injection Hin as Hn Hr; subst.
    + try (vm_compute in Hr; injection Hr as Hr; subst r'). apply (bool_decide_unpack _); vm_compute; reflexivity.
    + reflexivity.
Defined.

(* ================================================================== *)
(** * Further properties of the analyzer *)

Lemma count_cons {A} (p : A -> bool) (x : A) (l : list A) :
  count p (x :: l) = ((if p x then 1 else 0) + count p l)%nat.
Proof.
  unfold count. rewrite filter_cons. case_decide as Hd; destruct (p x) eqn:E; simpl;
  try reflexivity; exfalso; try (apply Hd; reflexivity); try (exact Hd); discriminate.
Qed.

Lemma size_singleton_union_le (e : string) (X : gset string) :
  (size ({[ e ]} ∪ X) <= S (size X))%nat.
Proof.
  rewrite size_union_alt, size_singleton.
  pose proof (subseteq_size (X ∖ {[e]}) X ltac:(set_solver)). lia.
Qed.

Lemma snat_loop_accounting (rules : list snat_rule) (ext lg : gset string) (iss : list string) :
  let '(e, l, i) := snat_loop rules ext lg iss in
  length i = (length iss + (length rules - count snat_parsed_successfully rules))%nat
  /\ count snat_parsed_successfully rules <= length rules
  /\ (size e <= size ext + count snat_parsed_successfully rules)%nat
  /\ (size l <= size lg + count snat_parsed_successfully rules)%nat.
Proof.
  revert ext lg iss.
  induction rules as [|r rs IH]; intros ext lg iss; simpl.
  - unfold count; simpl; lia.
  - rewrite count_cons. destruct r as [e0 l0 p0 raw0 b0|raw0]; simpl.
    + specialize (IH (if String.eqb e0 "" then ext else {[e0]} ∪ ext)
                     (if String.eqb l0 "" then lg else {[l0]} ∪ lg) iss).
      destruct (snat_loop rs _ _ _) as [[e l] i].
      destruct IH as (H1 & H2 & H3 & H4).
      assert (Ee : (size (if String.eqb e0 "" then ext else {[e0]} ∪ ext) <= S (size ext))%nat)
        by (destruct (String.eqb e0 ""); [lia | apply size_singleton_union_le]).
      assert (El : (size (if String.eqb l0 "" then lg else {[l0]} ∪ lg) <= S (size lg))%nat)
        by (destruct (String.eqb l0 ""); [lia | apply size_singleton_union_le]).
      lia.
    + specialize (IH ext lg (app iss [failed_issue raw0])).
      destruct (snat_loop rs _ _ _) as [[e l] i].
      destruct IH as (H1 & H2 & H3 & H4).
      rewrite length_app in H1. simpl in H1. lia.
Qed.

(** X1 ([_analyze_egressip_snat_rules]): every rule is either parsed or
    reported as a "Failed to parse" issue, so parsed + issues = total;
    the sets of external and logical IPs have at most one element per
    parsed rule. *)
Theorem snat_analysis_accounting (rules : list snat_rule) :
  let a := analyze_egressip_snat_rules rules in
  (sa_parsed_successfully a + length (sa_potential_issues a) = sa_total_rules a)%nat
  /\ (size (sa_external_ips a) <= sa_parsed_successfully a)%nat
  /\ (size (sa_logical_ips a) <= sa_parsed_successfully a)%nat.
Proof.
  unfold analyze_egressip_snat_rules.
  pose proof (snat_loop_accounting rules ∅ ∅ []) as H.
  destruct (snat_loop rules ∅ ∅ []) as [[e l] i]. simpl.
  rewrite size_empty in H. simpl in H. lia.
Qed.

(** LRP parser output *)

Lemma parse_lrp_well_formed (line : string) : lrp_well_formed (parse_egressip_lrp_rule line).
Proof.
  unfold parse_egressip_lrp_rule.
  destruct (Py.split_ws_max2 (Py.strip line)) as [|p [|m [|a [|x rest]]]] eqn:E; simpl; auto.
  apply (split_ws_max2_three _ _ _ _ E).
Qed.

Lemma get_lrp_well_formed (out : option string) :
  Forall lrp_well_formed (get_egressip_lrp_rules out).
Proof.
  destruct out as [o|]; simpl; [|constructor].
  unfold lrp_rules_of_lines. apply Forall_forall. intros r Hr.
  apply list_elem_of_In, in_map_iff in Hr as [l [<- _]].
  apply parse_lrp_well_formed.
Qed.

Lemma bump_keys (k x : string) (d : list (string * nat)) :
  x ∈ map fst (bump k d) <-> x = k \/ x ∈ map fst d.
Proof.
  induction d as [|[k' n] d IH]; simpl.
  - rewrite list_elem_of_singleton. set_solver.
  - destruct (String.eqb k k') eqn:E; simpl.
    + apply String.eqb_eq in E. subst. rewrite !elem_of_cons. tauto.
    + rewrite !elem_of_cons, IH. tauto.
Qed.

Lemma bump_nodup (k : string) (d : list (string * nat)) :
  NoDup (map fst d) -> NoDup (map fst (bump k d)).
Proof.
  induction d as [|[k' n] d IH]; simpl; intros Hd.
  - constructor; [set_solver | constructor].
  - apply NoDup_cons in Hd as [Hk Hd].
    destruct (String.eqb k k') eqn:E; simpl.
    + constructor; assumption.
    + constructor; [|auto]. rewrite bump_keys. intros [C|C]; [|contradiction].
      subst. rewrite String.eqb_refl in E. discriminate.
Qed.

Lemma bump_sum (k : string) (d : list (string * nat)) :
  sum_list (map snd (bump k d)) = S (sum_list (map snd d)).
Proof.
  induction d as [|[k' n] d IH]; simpl; [lia|].
  destruct (String.eqb k k'); simpl; lia.
Qed.

Lemma lrp_loop_well_formed (rules : list lrp_rule) prios acts issues :
  Forall lrp_well_formed rules ->
  exists prios' acts' issues',
    lrp_loop rules prios acts issues = Some (prios', acts', issues')
    /\ (length prios' + length issues' = length prios + length issues + length rules)%nat
    /\ sum_list (map snd acts') = (sum_list (map snd acts) + count lrp_parsed_successfully rules)%nat
    /\ (NoDup (map fst acts) -> NoDup (map fst acts')).
Proof.
  revert prios acts issues.
  induction rules as [|r rs IH]; intros prios acts issues Hf; simpl.
  - exists prios, acts, issues. unfold count; simpl. repeat split; auto; lia.
  - inversion Hf as [|? ? Hr Hrs]; subst. rewrite count_cons.
    destruct r as [p m a raw b|raw]; simpl in *.
    + destruct Hr as [Hp [w [ws Ha]]].
      assert (Hp' : String.eqb p "" = false) by (apply String.eqb_neq; exact Hp).
      assert (Ha' : String.eqb a "" = false)
        by (apply String.eqb_neq; intros ->; discriminate Ha).
      rewrite Hp', Ha', Ha.
      destruct (PyInt.parse p) as [z|];
      [ destruct (IH (app prios [z]) (bump w acts) issues Hrs) as (p1 & a1 & i1 & E & L & S & N)
      | destruct (IH prios (bump w acts) (app issues ["Invalid priority: " ++ p]) Hrs)
          as (p1 & a1 & i1 & E & L & S & N) ];
      exists p1, a1, i1; rewrite E; rewrite ?length_app in L; simpl in L;
      rewrite bump_sum in S; repeat split; try lia;
      intros Hd; apply N, bump_nodup, Hd.
    + destruct (IH prios acts (app issues [failed_issue raw]) Hrs) as (p1 & a1 & i1 & E & L & S & N).
      exists p1, a1, i1. rewrite length_app in L. simpl in L. repeat split; auto; lia.
Qed.

(** X2 ([_analyze_egressip_lrp_rules] on [_get_egressip_lrp_rules]): on
    any command output the analysis never raises; every rule either
    contributes a priority or one issue, the action counts add up to the
    number of parsed rules, and each action name is counted once. *)
Theorem lrp_analysis_of_command_output (out : option string) :
  exists la, analyze_egressip_lrp_rules (get_egressip_lrp_rules out) = Some la
  /\ (length (la_priorities la) + length (la_potential_issues la) = la_total_rules la)%nat
  /\ sum_list (map snd (la_action_types la)) = la_parsed_successfully la
  /\ NoDup (map fst (la_action_types la)).
Proof.
  unfold analyze_egressip_lrp_rules.
  destruct (lrp_loop_well_formed (get_egressip_lrp_rules out) [] [] [] (get_lrp_well_formed out))
    as (p1 & a1 & i1 & E & L & S & N).
  rewrite E. eexists; split; [reflexivity|]. simpl in *.
  repeat split; [lia | lia | apply N; constructor].
Qed.

(** X3 ([analyze_node_rules]): for any outputs of the two OVN commands
    (including failed commands) the node analysis returns a success
    record, never the error record. *)
Theorem analyze_node_rules_always_succeeds (snat_out lrp_out : option string) :
  exists r, analyze_node_rules snat_out lrp_out = NodeSuccess r.
Proof.
  unfold analyze_node_rules.
  destruct (lrp_loop_well_formed (get_egressip_lrp_rules lrp_out) [] [] [] (get_lrp_well_formed lrp_out))
    as (p1 & a1 & i1 & E & _).
  unfold analyze_egressip_lrp_rules. rewrite E. eauto.
Qed.

Lemma size_diff_inter (A B : gset string) : size (A ∖ B) = (size A - size (A ∩ B))%nat.
Proof.
  assert (E : A ∖ B = A ∖ (A ∩ B)) by (apply set_eq; intros x; set_solver).
  rewrite E. apply size_difference. set_solver.
Qed.

Lemma size_zero_empty (X : gset string) : size X = 0%nat <-> X = ∅.
Proof. rewrite size_empty_iff. split; [apply leibniz_equiv | intros ->; reflexivity]. Qed.

(** X4 ([_validate_rules_against_egressips]): with the EgressIP objects
    available, a summary is produced; no IP is both missing and
    unexpected; total SNAT IPs minus unexpected equals total assigned
    minus missing; and validation passes exactly when both IP sets are
    equal. *)
Theorem validation_counts_balance (snat : list snat_rule) (objs : list egressip_obj) :
  let v := validate_rules_against_egressips snat (CtxAvailable objs) in
  exists s, v_summary v = Some s
  /\ missing_snat_rules v ∩ unexpected_snat_rules v = ∅
  /\ (total_snat_external_ips s - unexpected_rules_count s
      = total_assigned_egressips s - missing_rules_count s)%nat
  /\ (validation_passed s = true <-> total_assigned_ips objs = relevant_snat_ips snat).
Proof.
  simpl. eexists. split; [reflexivity|]. simpl.
  set (A := total_assigned_ips objs). set (B := relevant_snat_ips snat).
  split; [apply set_eq; intros x; set_solver|].
  split.
  - rewrite !size_diff_inter.
    assert (E : B ∩ A = A ∩ B) by (apply set_eq; intros x; set_solver).
    rewrite E. pose proof (subseteq_size (A ∩ B) A ltac:(set_solver)).
    pose proof (subseteq_size (A ∩ B) B ltac:(set_solver)). lia.
  - rewrite andb_true_iff, !Nat.eqb_eq, !size_zero_empty. split.
    + intros [H1 H2]. apply set_eq; intros x. split; intros Hx;
      destruct (decide (x ∈ B)); destruct (decide (x ∈ A)); set_solver.
    + intros ->. split; apply set_eq; intros x; set_solver.
Qed.


(** Monitor *)
Lemma checks_uncancelled (e : Monitor.env) (i n : nat) (s : list snapshot) :
  Monitor.cancelled_at e = None ->
  Monitor.checks e i n s = (inr tt, app s (map (Monitor.take e) (seq (S i) n))).
Proof.
  intros Hc. revert i s. induction n as [|n IH]; intros i s; simpl.
  - rewrite app_nil_r. reflexivity.
  - unfold mbind, Monitor.M_bind, Monitor.bind, Monitor.sleep. rewrite Hc. simpl.
    unfold Monitor.append. simpl. rewrite IH, <- app_assoc. reflexivity.
Qed.

Lemma monitor_uncancelled (e : Monitor.env) (node : string) (d : Z) :
  Monitor.cancelled_at e = None -> Z.min 30 (d / 10) <> 0%Z ->
  let n := Z.to_nat (d / Z.min 30 (d / 10)) in
  let snaps := map (Monitor.take e) (seq 0 (S n)) in
  Monitor.monitor_egressip_rule_changes e node d
  = Monitor.Returned (Monitor.MonSuccess node d (S n) (Monitor.change_events snaps)
                        (Monitor.stability (Monitor.change_events snaps)) snaps).
Proof.
  intros Hc Hi. cbv zeta.
  unfold Monitor.monitor_egressip_rule_changes, Monitor.body, mbind, Monitor.M_bind,
    Monitor.bind, Monitor.append, Monitor.floordiv.
  simpl. apply Z.eqb_neq in Hi. rewrite Hi. unfold Monitor.ret.
  rewrite checks_uncancelled by exact Hc. simpl. rewrite length_map, length_seq. reflexivity.
Qed.

(** X5 ([monitor_egressip_rule_changes]): an uncancelled session of at
    least 10 seconds runs [duration // min(30, duration // 10)] checks
    (at least 10) after the initial snapshot, and returns all the
    snapshots with the change count and stability computed from them. *)
Theorem monitor_long_session_checks (e : Monitor.env) (node : string) (d : Z) :
  Monitor.cancelled_at e = None -> (10 <= d)%Z ->
  exists n, (10 <= n)%nat /\ Z.of_nat n = (d / Z.min 30 (d / 10))%Z
  /\ Monitor.monitor_egressip_rule_changes e node d
     = Monitor.Returned (Monitor.MonSuccess node d (S n)
         (Monitor.change_events (map (Monitor.take e) (seq 0 (S n))))
         (Monitor.stability (Monitor.change_events (map (Monitor.take e) (seq 0 (S n)))))
         (map (Monitor.take e) (seq 0 (S n)))).
Proof.
  intros Hc Hd.
  assert (Hq : (1 <= d / 10)%Z) by (apply Z.div_le_lower_bound; lia).
  assert (Hpos : (0 < Z.min 30 (d / 10))%Z) by lia.
  assert (Hn : (10 <= d / Z.min 30 (d / 10))%Z).
  { apply Z.div_le_lower_bound; [lia|].
    pose proof (Z.mul_div_le d 10 ltac:(lia)).
    destruct (Z.min_spec 30 (d / 10)) as [[? ->]|[? ->]]; lia. }
  exists (Z.to_nat (d / Z.min 30 (d / 10))). split; [lia|]. split; [lia|].
  apply monitor_uncancelled; [exact Hc | lia].
Qed.

(** X6 ([monitor_egressip_rule_changes]): a negative duration does not
    fail: Python's floor division gives a negative interval and between
    1 and 10 iterations, and the session returns its snapshots as a
    success. *)
Theorem monitor_negative_duration_succeeds (e : Monitor.env) (node : string) (d : Z) :
  Monitor.cancelled_at e = None -> (d < 0)%Z ->
  exists n, (1 <= n <= 10)%nat /\ Z.of_nat n = (d / (d / 10))%Z
  /\ Monitor.monitor_egressip_rule_changes e node d
     = Monitor.Returned (Monitor.MonSuccess node d (S n)
         (Monitor.change_events (map (Monitor.take e) (seq 0 (S n))))
         (Monitor.stability (Monitor.change_events (map (Monitor.take e) (seq 0 (S n)))))
         (map (Monitor.take e) (seq 0 (S n)))).
Proof.
  intros Hc Hd.
  set (q := (d / 10)%Z).
  assert (Hq1 : (10 * q <= d)%Z) by (apply Z.mul_div_le; lia).
  assert (Hq2 : (d < 10 * q + 10)%Z) by (pose proof (Z.mod_pos_bound d 10 ltac:(lia)); pose proof (Z.div_mod d 10 ltac:(lia)); unfold q; lia).
  assert (Hqn : (q < 0)%Z) by lia.
  assert (Hmin : Z.min 30 q = q) by lia.
  assert (Hdq : (d <= q)%Z) by lia.
  assert (Hdiv : (d / q = (- d) / (- q))%Z) by (symmetry; apply Z.div_opp_opp; lia).
  assert (Hlo : (1 <= (- d) / (- q))%Z) by (apply Z.div_le_lower_bound; lia).
  assert (Hhi : ((- d) / (- q) <= 10)%Z) by (apply Z.div_le_upper_bound; lia).
  exists (Z.to_nat (d / q)). split; [lia|]. split; [lia|].
  pose proof (monitor_uncancelled e node d Hc ltac:(unfold q in *; lia)) as H.
  cbv zeta in H. fold q in H. rewrite Hmin in H. exact H.
Qed.



(** X7 ([_generate_egressip_recommendations]): the list of
    recommendations is never empty, and the "configuration appears
    healthy" text appears only as the single recommendation. *)
Theorem recommendations_ok_only_alone (sa : snat_analysis) (la : lrp_analysis)
    (cc : consistency) (v : validation) :
  let recs := generate_egressip_recommendations sa la cc v in
  recs <> [] /\ (In rec_ok recs -> recs = [rec_ok]).
Proof.
  cbv zeta. unfold generate_egressip_recommendations.
  repeat case_match; simplify_eq/=;
  (split; [discriminate|]); intros Hin;
  repeat (destruct Hin as [Hin|Hin]; [try (symmetry in Hin; msg_neq Hin)|]);
  try contradiction; try reflexivity.
Qed.

Lemma recommendations_poor_iff (sa : snat_analysis) (la : lrp_analysis)
    (cc : consistency) (v : validation) :
  In rec_poor (generate_egressip_recommendations sa la cc v)
  <-> Qle_bool (1 # 2) (consistency_score cc) = false.
Proof.
  unfold generate_egressip_recommendations.
  repeat case_match; simplify_eq/=;
  repeat match goal with
         | H : negb _ = true |- _ => apply negb_true_iff in H
         | H : negb _ = false |- _ => apply negb_false_iff in H
         end;
  split; intros Hin;
  try (simpl; auto 10; fail);
  try congruence;
  repeat (destruct Hin as [Hin|Hin]; [try msg_neq Hin|]); try contradiction; try congruence.
Qed.

Lemma consistency_score_below_half (s : list snat_rule) (l : list lrp_rule) :
  let A := relevant_snat_ips s in
  let B := lrp_ip_references l in
  Qle_bool (1 # 2) (consistency_score (check_egressip_rule_consistency s l)) = false
  <-> A = ∅ \/ B = ∅
      \/ (inject_Z (Z.of_nat (size (A ∩ B))) / inject_Z (Z.of_nat (size A)) < 1 # 2)%Q.
Proof.
  cbv zeta. unfold check_egressip_rule_consistency.
  set (A := relevant_snat_ips s). set (B := lrp_ip_references l).
  set (r := (inject_Z (Z.of_nat (size (A ∩ B))) / inject_Z (Z.of_nat (size A)))%Q).
  cbv zeta. fold A B. fold r.
  assert (Hr : Qle_bool (1 # 2) r = false <-> (r < 1 # 2)%Q).
  { split; [apply Qle_bool_false|].
    intros C. destruct (Qle_bool (1 # 2) r) eqn:Q; [|reflexivity].
    apply Qle_bool_iff in Q. exfalso. exact (Qlt_not_le _ _ C Q). }
  case_bool_decide as HA; case_bool_decide as HB; cbn [andb].
  - destruct (negb (Qle_bool r (4 # 5))); [|destruct (negb (Qle_bool r (1 # 2)))];
    cbn [consistency_score]; rewrite Hr; split; auto; intros [C|[C|C]]; try contradiction; exact C.
  - split; [intros _; right; left; destruct (decide (B = ∅)); [assumption|contradiction] | reflexivity].
  - split; [intros _; left; destruct (decide (A = ∅)); [assumption|contradiction] | reflexivity].
  - split; [intros _; left; destruct (decide (A = ∅)); [assumption|contradiction] | reflexivity].
Qed.

Lemma node_recommendations_some (so lo : option string) (ctx : egressip_context) :
  exists recs, node_recommendations so lo ctx = Some recs
  /\ exists la, recs = generate_egressip_recommendations
                        (analyze_egressip_snat_rules (get_egressip_snat_rules so)) la
                        (check_egressip_rule_consistency (get_egressip_snat_rules so)
                                                        (get_egressip_lrp_rules lo))
                        (validate_rules_against_egressips (get_egressip_snat_rules so) ctx).
Proof.
  unfold node_recommendations.
  destruct (lrp_loop_well_formed (get_egressip_lrp_rules lo) [] [] [] (get_lrp_well_formed lo))
    as (p1 & a1 & i1 & E & _).
  unfold analyze_egressip_lrp_rules at 1. rewrite E. eauto.
Qed.

(** X8 ([_generate_egressip_recommendations] with
    [_check_egressip_rule_consistency]): the "Poor correlation"
    recommendation is given exactly when one of the two IP sets is empty
    or the overlap ratio is below 0.5. *)
Theorem node_recommendations_poor_correlation (so lo : option string) (ctx : egressip_context) :
  let A := relevant_snat_ips (get_egressip_snat_rules so) in
  let B := lrp_ip_references (get_egressip_lrp_rules lo) in
  exists recs, node_recommendations so lo ctx = Some recs
  /\ (In rec_poor recs
      <-> A = ∅ \/ B = ∅
          \/ (inject_Z (Z.of_nat (size (A ∩ B))) / inject_Z (Z.of_nat (size A)) < 1 # 2)%Q).
Proof.
  cbv zeta.
  destruct (node_recommendations_some so lo ctx) as (recs & E & la & ->).
  eexists. split; [exact E|].
  rewrite recommendations_poor_iff. apply consistency_score_below_half.
Qed.

(** X9 ([_generate_egressip_recommendations]): with no SNAT and no LRP
    rule, the recommendations are the two "No ... rules found" texts, the
    poor correlation text, and, when EgressIPs are assigned, the
    "Missing EgressIP SNAT rules for n EgressIPs" text. *)
Theorem node_recommendations_without_rules (so lo : option string) (ctx : egressip_context) :
  get_egressip_snat_rules so = [] -> get_egressip_lrp_rules lo = [] ->
  node_recommendations so lo ctx
  = Some (app [rec_no_snat; rec_no_lrp; rec_poor]
            (match ctx with
             | CtxAvailable objs =>
                 let n := size (total_assigned_ips objs) in
                 if Nat.eqb n 0 then [] else [rec_missing n]
             | CtxUnavailable _ => []
             end)).
Proof.
  intros Hs Hl. unfold node_recommendations. rewrite Hs, Hl.
  unfold analyze_egressip_lrp_rules. simpl.
  unfold generate_egressip_recommendations, check_egressip_rule_consistency. simpl.
  rewrite (bool_decide_eq_false_2 ((∅ : gset string) ≠ ∅)) by (intros C; apply C; reflexivity).
  simpl. destruct ctx as [objs|err]; simpl; [|reflexivity].
  assert (E1 : total_assigned_ips objs ∖ ∅ = total_assigned_ips objs)
    by (apply set_eq; intros x; set_solver).
  assert (E2 : (∅ : gset string) ∖ total_assigned_ips objs = ∅)
    by (apply set_eq; intros x; set_solver).
  unfold summary_get. simpl. rewrite E1, E2, size_empty. simpl.
  destruct (size (total_assigned_ips objs)); reflexivity.
Qed.


(** Change analysis *)
Lemma snapshot_changes_same (s : snapshot) (t1 t2 : string) :
  snapshot_changes (with_timestamp s t1) (with_timestamp s t2) = [].
Proof.
  unfold snapshot_changes, count_change, content_change, with_timestamp. simpl.
  rewrite !Nat.eqb_refl, !Z.eqb_refl. reflexivity.
Qed.

Lemma changes_of_same (s : snapshot) (tss : list string) :
  changes_of (map (with_timestamp s) tss) = [].
Proof.
  induction tss as [|t tss IH]; [reflexivity|].
  destruct tss as [|t' tss]; [reflexivity|].
  change (changes_of (with_timestamp s t :: with_timestamp s t' :: map (with_timestamp s) tss) = []).
  simpl. rewrite snapshot_changes_same. exact IH.
Qed.

(** X10 ([_analyze_egressip_rule_changes], [_assess_egressip_rule_stability]):
    snapshots that differ only in their timestamps give no change event
    and are assessed as "stable". *)
Theorem timestamp_only_changes_are_stable (s : snapshot) (tss : list string) :
  (2 <= length tss)%nat ->
  analyze_egressip_rule_changes (map (with_timestamp s) tss) = ChangeAnalysis false 0 []
  /\ stab_stability (assess_egressip_rule_stability
                       (analyze_egressip_rule_changes (map (with_timestamp s) tss))) = "stable".
Proof.
  intros Hl.
  assert (E : analyze_egressip_rule_changes (map (with_timestamp s) tss) = ChangeAnalysis false 0 []).
  { unfold analyze_egressip_rule_changes. rewrite length_map.
    destruct (Nat.ltb_spec (length tss) 2); [lia|]. rewrite changes_of_same. reflexivity. }
  rewrite E. split; reflexivity.
Qed.

Lemma changes_of_bound (l : list snapshot) :
  (length (changes_of l) <= length l - 1)%nat /\ Forall (fun c => c <> []) (changes_of l).
Proof.
  induction l as [|p r IH]; [simpl; split; [lia|constructor]|].
  destruct r as [|c r']; [simpl; split; [lia|constructor]|].
  change (changes_of (p :: c :: r')) with
    (match snapshot_changes p c with [] => changes_of (c :: r') | sc => sc :: changes_of (c :: r') end).
  destruct IH as [IH1 IH2]. simpl length in *.
  destruct (snapshot_changes p c) as [|x xs]; simpl.
  - split; [lia|exact IH2].
  - split; [lia|constructor; [discriminate|exact IH2]].
Qed.

Lemma snapshot_changes_nil (p c : snapshot) :
  snapshot_changes p c = [] <-> Monitor.snapshot_differs p c = false.
Proof.
  unfold snapshot_changes, count_change, content_change, Monitor.snapshot_differs.
  destruct (Nat.eqb (snat_count p) (snat_count c)), (Nat.eqb (lrp_count p) (lrp_count c)),
    (Nat.eqb (egressip_snat_count p) (egressip_snat_count c)),
    (Nat.eqb (egressip_lrp_count p) (egressip_lrp_count c)),
    (Z.eqb (snat_rules_hash p) (snat_rules_hash c)), (Z.eqb (lrp_rules_hash p) (lrp_rules_hash c));
  simpl; split; intros; congruence.
Qed.

Lemma changes_of_events (l : list snapshot) :
  length (changes_of l) = Monitor.change_events l.
Proof.
  induction l as [|p r IH]; [reflexivity|].
  destruct r as [|c r']; [reflexivity|].
  change (changes_of (p :: c :: r')) with
    (match snapshot_changes p c with [] => changes_of (c :: r') | sc => sc :: changes_of (c :: r') end).
  change (Monitor.change_events (p :: c :: r'))
    with ((if Monitor.snapshot_differs p c then 1 else 0) + Monitor.change_events (c :: r'))%nat.
  destruct (snapshot_changes p c) as [|x xs] eqn:E.
  - apply snapshot_changes_nil in E. rewrite E. exact IH.
  - destruct (Monitor.snapshot_differs p c) eqn:D.
    + change (S (length (changes_of (c :: r'))) = 1 + Monitor.change_events (c :: r'))%nat.
      rewrite IH. reflexivity.
    + apply snapshot_changes_nil in D. congruence.
Qed.

(** X11 ([_analyze_egressip_rule_changes]): with two or more snapshots,
    the recorded changes are non-empty dicts, at most one per consecutive
    pair, their number is [total_change_events], and [changes_detected]
    holds exactly when there is one. *)
Theorem change_analysis_bounds (l : list snapshot) :
  (2 <= length l)%nat ->
  exists ch, analyze_egressip_rule_changes l = ChangeAnalysis (Nat.ltb 0 (length ch)) (length ch) ch
  /\ length ch = Monitor.change_events l
  /\ (length ch <= length l - 1)%nat
  /\ Forall (fun c => c <> []) ch.
Proof.
  intros Hl. unfold analyze_egressip_rule_changes.
  destruct (Nat.ltb_spec (length l) 2); [lia|].
  exists (changes_of l). split; [reflexivity|]. split; [apply changes_of_events|].
  apply changes_of_bound.
Qed.

(** Multi-node *)
Lemma size_singleton_union_le' `{Countable A} (e : A) (X : gset A) :
  (size ({[ e ]} ∪ X) <= S (size X))%nat.
Proof.
  rewrite size_union_alt, size_singleton.
  pose proof (subseteq_size (X ∖ {[e]}) X ltac:(set_solver)). lia.
Qed.

Lemma size_list_to_set_le `{Countable A} (l : list A) :
  (size (list_to_set l : gset A) <= length l)%nat.
Proof.
  induction l as [|x l IH].
  - change (list_to_set [] : gset A) with (∅ : gset A). rewrite size_empty. simpl. lia.
  - change (list_to_set (x :: l) : gset A) with ({[x]} ∪ list_to_set l : gset A). simpl length.
    pose proof (size_singleton_union_le' x (list_to_set l)). lia.
Qed.

Lemma compare_counts_length (nas : list (string * node_result)) :
  length (compare_egressip_rule_counts nas) = count node_succeeded nas.
Proof.
  induction nas as [|[n a] nas IH]; [reflexivity|].
  rewrite count_cons. unfold compare_egressip_rule_counts in *. simpl.
  destruct a; simpl; rewrite IH; reflexivity.
Qed.

Lemma compare_content_length (nas : list (string * node_result)) :
  length (compare_egressip_rule_content nas) = count node_succeeded nas.
Proof.
  induction nas as [|[n a] nas IH]; [reflexivity|].
  rewrite count_cons. unfold compare_egressip_rule_content in *. simpl.
  destruct a; simpl; rewrite IH; reflexivity.
Qed.

(** X12 ([compare_egressip_rules_across_nodes]): when at most one node
    was analysed successfully, no inconsistency is reported, the overall
    consistency is true, and the only recommendation is the "consistent"
    text. *)
Theorem single_node_comparison_consistent (nas : list (string * node_result)) :
  (count node_succeeded nas <= 1)%nat ->
  compare_egressip_rules_report nas
  = {| mn_inconsistencies := []; mn_overall_consistency := true;
       mn_recommendations := [multi_rec_ok] |}.
Proof.
  intros Hc.
  assert (E : compare_egressip_rules_across_nodes nas = []).
  { unfold compare_egressip_rules_across_nodes, identify_egressip_inconsistencies.
    pose proof (size_list_to_set_le (map snd (compare_egressip_rule_counts nas))) as Hs.
    rewrite length_map, compare_counts_length in Hs.
    destruct (Nat.ltb_spec 1 (size (list_to_set (map snd (compare_egressip_rule_counts nas))
                                     : gset (nat * nat)))); [lia|].
    rewrite compare_content_length.
    destruct (Nat.ltb_spec 1 (count node_succeeded nas)); [lia|]. reflexivity. }
  unfold compare_egressip_rules_report. rewrite E. reflexivity.
Qed.

Lemma gset_two_elements `{Countable A} (X : gset A) :
  (1 < size X)%nat <-> exists x y, x ∈ X /\ y ∈ X /\ x <> y.
Proof.
  split.
  - intros Hs. destruct (size_pos_elem_of X ltac:(lia)) as [x Hx].
    assert (Hd : size (X ∖ {[x]}) = (size X - 1)%nat).
    { rewrite size_difference by set_solver. rewrite size_singleton. reflexivity. }
    destruct (size_pos_elem_of (X ∖ {[x]}) ltac:(lia)) as [y Hy].
    exists x, y. set_solver.
  - intros (x & y & Hx & Hy & Hxy).
    assert (Hsub : {[x]} ∪ {[y]} ⊆ X) by set_solver.
    pose proof (subseteq_size _ _ Hsub) as Hle.
    rewrite size_union in Hle by set_solver. rewrite !size_singleton in Hle. lia.
Qed.

Lemma counts_elem (nas : list (string * node_result)) (c : nat * nat) :
  c ∈ map snd (compare_egressip_rule_counts nas)
  <-> exists n r, In (n, NodeSuccess r) nas /\ c = (nr_snat_rules_count r, nr_lrp_rules_count r).
Proof.
  induction nas as [|[n a] nas IH]; simpl.
  - split; [intros Hc; inversion Hc | intros (? & ? & [] & _)].
  - unfold compare_egressip_rule_counts in *. destruct a as [r|err]; simpl.
    + rewrite elem_of_cons, IH. split.
      * intros [->|(n' & r' & Hin & ->)]; [exists n, r; auto | exists n', r'; auto].
      * intros (n' & r' & [Heq|Hin] & ->); [inversion Heq; subst; left; reflexivity|].
        right. exists n', r'. auto.
    + rewrite IH. split.
      * intros (n' & r' & Hin & ->). exists n', r'. auto.
      * intros (n' & r' & [Heq|Hin] & ->); [discriminate|]. exists n', r'. auto.
Qed.

(** X13 ([_identify_egressip_inconsistencies]): a rule count mismatch is
    reported exactly when two successfully analysed nodes have different
    (SNAT count, LRP count) pairs. *)
Theorem rule_count_mismatch_iff (nas : list (string * node_result)) :
  (exists d, In (RuleCountMismatch d) (compare_egressip_rules_across_nodes nas))
  <-> exists n1 r1 n2 r2, In (n1, NodeSuccess r1) nas /\ In (n2, NodeSuccess r2) nas
      /\ (nr_snat_rules_count r1, nr_lrp_rules_count r1)
         <> (nr_snat_rules_count r2, nr_lrp_rules_count r2).
Proof.
  unfold compare_egressip_rules_across_nodes, identify_egressip_inconsistencies.
  set (S := list_to_set (map snd (compare_egressip_rule_counts nas)) : gset (nat * nat)).
  assert (Hm : forall d, ~ In (RuleCountMismatch d)
      (if Nat.ltb 1 (length (compare_egressip_rule_content nas)) then
         let u := all_snat_ips (compare_egressip_rule_content nas) in
         flat_map (fun '(n, (ips, _)) =>
                     let missing := u ∖ ips in
                     if bool_decide (missing = ∅) then [] else [MissingSnatIps n missing])
                  (compare_egressip_rule_content nas)
       else [])).
  { intros d. destruct (Nat.ltb _ _); [|simpl; auto]. cbv zeta.
    intros Hin. apply in_flat_map in Hin as [[n [ips pr]] [_ Hin]].
    destruct (bool_decide _); simpl in Hin; [contradiction|].
    destruct Hin as [Hin|[]]; discriminate. }
  transitivity ((1 < size S)%nat).
  - split.
    + intros [d Hin]. apply in_app_or in Hin as [Hin|Hin]; [|exfalso; exact (Hm d Hin)].
      destruct (Nat.ltb_spec 1 (size S)); [assumption|contradiction].
    + intros Hs. exists (compare_egressip_rule_counts nas). apply in_or_app. left.
      destruct (Nat.ltb_spec 1 (size S)); [left; reflexivity|lia].
  - rewrite gset_two_elements. unfold S. setoid_rewrite elem_of_list_to_set.
    setoid_rewrite counts_elem. split.
    + intros (x & y & (n1 & r1 & H1 & ->) & (n2 & r2 & H2 & ->) & Hne).
      exists n1, r1, n2, r2. auto.
    + intros (n1 & r1 & n2 & r2 & H1 & H2 & Hne).
      exists (nr_snat_rules_count r1, nr_lrp_rules_count r1),
             (nr_snat_rules_count r2, nr_lrp_rules_count r2).
      split; [exists n1, r1; auto|]. split; [exists n2, r2; auto|]. exact Hne.
Qed.

(** X14 ([_generate_multi_node_egressip_recommendations]): one
    recommendation per inconsistency, or the single "consistent" text
    when there is none. *)
Theorem multi_node_recommendations_shape (incs : list inconsistency) :
  length (generate_multi_node_egressip_recommendations incs) = Nat.max 1 (length incs)
  /\ (generate_multi_node_egressip_recommendations incs = [multi_rec_ok] <-> incs = []).
Proof.
  destruct incs as [|i is]; simpl.
  - split; [reflexivity|tauto].
  - rewrite app_nil_r, length_map. split; [lia|]. split; [|discriminate].
    intros H. destruct is; [|discriminate]. simpl in H. injection H as H.
    destruct i; cbv [multi_rec_count_mismatch multi_rec_missing multi_rec_ok String.append] in H;
    discriminate H.
Qed.


(** DB info *)
Lemma split_nl_aux_length (s cur : string) :
  length (Py.split_nl_aux s cur) = S (newlines s).
Proof.
  revert cur. induction s as [|c s IH]; intros cur; simpl; [reflexivity|].
  destruct (Ascii.eqb c "010"%char); simpl; rewrite IH; reflexivity.
Qed.

Lemma str_count_go_zero (fuel : nat) (sub s : string) :
  sub <> "" -> (String.length s <= fuel)%nat ->
  str_count_go fuel sub s = 0%nat <-> Py.contains sub s = false.
Proof.
  intros Hsub. revert s. induction fuel as [|f IH]; intros s Hl.
  - destruct s; [|simpl in Hl; lia]. destruct sub; [contradiction|]. simpl. tauto.
  - destruct s as [|c r].
    + destruct sub; [contradiction|]. simpl. tauto.
    + cbn [str_count_go Py.contains].
      destruct (String.prefix sub (String c r)) eqn:P; simpl.
      * split; intros H; discriminate H.
      * apply IH. simpl in Hl. lia.
Qed.

(** X15 ([_get_egressip_ovn_database_info]): when the command succeeds,
    the line count is one more than the number of newlines, and the
    EgressIP reference count is 0 exactly when the lower-cased output
    does not contain "egress". *)
Theorem ovn_database_info_counts (output : string) :
  exists i, get_egressip_ovn_database_info (inl output) = DbAvailable i
  /\ odb_line_count i = S (newlines output)
  /\ (odb_egressip_references i = 0%nat <-> Py.contains "egress" (Py.lower output) = false).
Proof.
  eexists. split; [reflexivity|]. simpl. split.
  - apply split_nl_aux_length.
  - apply str_count_go_zero; [discriminate | lia].
Qed.

(** Regex *)
Lemma orelse_ne {A} (x y : option A) :
  IpRegex.orelse x y <> None <-> x <> None \/ y <> None.
Proof. destruct x; simpl; split; try tauto; intros _; discriminate. Qed.

Lemma str_app_cons (x : ascii) (a b : string) : String x a ++ b = String x (a ++ b).
Proof. reflexivity. Qed.

Lemma str_app_nil_l (b : string) : "" ++ b = b.
Proof. reflexivity. Qed.

Lemma str_app_assoc (a b c : string) : (a ++ b) ++ c = a ++ (b ++ c).
Proof. induction a as [|x a IH]; [reflexivity|]. rewrite !str_app_cons, IH. reflexivity. Qed.

Lemma str_app_nil (a : string) : a ++ "" = a.
Proof. induction a as [|x a IH]; [reflexivity|]. rewrite str_app_cons, IH. reflexivity. Qed.

Lemma grp_app (s t : string) (k k' : string -> option string) :
  (forall r, k r <> None -> k' (r ++ t) <> None) ->
  IpRegex.grp s k <> None -> IpRegex.grp (s ++ t) k' <> None.
Proof.
  intros Hk.
  destruct s as [|a [|b [|c s3]]]; rewrite ?str_app_cons, ?str_app_nil_l; simpl; [tauto| | |];
  destruct (Py.is_digit a); try tauto.
  - intros H. apply Hk in H. simpl in H.
    destruct t as [|b t]; [exact H|]. destruct (Py.is_digit b); [|exact H].
    destruct t as [|c t]; [rewrite orelse_ne; auto|].
    destruct (Py.is_digit c); rewrite !orelse_ne; auto.
  - destruct (Py.is_digit b).
    + intros H. rewrite orelse_ne in H.
      destruct t as [|c t].
      * rewrite orelse_ne. destruct H as [H|H]; apply Hk in H; rewrite ?str_app_cons, ?str_app_nil_l in H; auto.
      * destruct (Py.is_digit c); rewrite !orelse_ne;
        destruct H as [H|H]; apply Hk in H; rewrite ?str_app_cons, ?str_app_nil_l in H; auto.
    + intros H. apply Hk in H. exact H.
  - destruct (Py.is_digit b); [|intros H; apply Hk in H; exact H].
    destruct (Py.is_digit c); rewrite !orelse_ne; intros H;
    repeat destruct H as [H|H]; apply Hk in H; rewrite ?str_app_cons, ?str_app_nil_l in H; auto.
Qed.

Lemma dot_app (s t : string) (k k' : string -> option string) :
  (forall r, k r <> None -> k' (r ++ t) <> None) ->
  IpRegex.dot s k <> None -> IpRegex.dot (s ++ t) k' <> None.
Proof.
  intros Hk. destruct s as [|c r]; rewrite ?str_app_cons; simpl; [tauto|].
  destruct (Ascii.eqb c "."%char); [apply Hk | tauto].
Qed.

Lemma ipv4_app (s t : string) (k k' : string -> option string) :
  (forall r, k r <> None -> k' (r ++ t) <> None) ->
  IpRegex.ipv4 s k <> None -> IpRegex.ipv4 (s ++ t) k' <> None.
Proof.
  intros Hk. unfold IpRegex.ipv4.
  apply grp_app. intros r1. apply dot_app. intros r2. apply grp_app. intros r3.
  apply dot_app. intros r4. apply grp_app. intros r5. apply dot_app. intros r6.
  apply grp_app. exact Hk.
Qed.

Lemma search_eq (s : string) :
  IpRegex.search s = match IpRegex.ipv4 s (fun r => Some r) with
                     | Some _ => true
                     | None => match s with EmptyString => false | String _ r => IpRegex.search r end
                     end.
Proof. destruct s; reflexivity. Qed.

Lemma search_ipv4_inside (pre e post : string) :
  is_ipv4 e = true -> IpRegex.search (pre ++ e ++ post) = true.
Proof.
  intros He.
  assert (Hm : IpRegex.ipv4 (e ++ post) (fun r => Some r) <> None).
  { apply (ipv4_app e post (fun r => if String.eqb r "" then Some r else None)).
    - intros r _. discriminate.
    - unfold is_ipv4 in He. destruct (IpRegex.ipv4 e _); [discriminate|discriminate He]. }
  induction pre as [|c pre IH].
  - rewrite str_app_nil_l, search_eq. destruct (IpRegex.ipv4 (e ++ post) _); [reflexivity|contradiction].
  - rewrite str_app_cons, search_eq.
    destruct (IpRegex.ipv4 (String c (pre ++ e ++ post)) (fun r => Some r)); [reflexivity|exact IH].
Qed.

(** X16 ([_is_egressip_related_snat], [_is_egressip_related_lrp]): any
    line that contains a dotted-quad IPv4 literal is considered
    EgressIP related by both heuristics. *)
Theorem ipv4_literal_marks_line_related (pre e post : string) :
  is_ipv4 e = true ->
  is_egressip_related_snat (pre ++ e ++ post) = true
  /\ is_egressip_related_lrp (pre ++ e ++ post) = true.
Proof.
  intros He. unfold is_egressip_related_snat, is_egressip_related_lrp.
  rewrite search_ipv4_inside by exact He. rewrite !orb_true_r. split; reflexivity.
Qed.

Lemma split_ws_aux_sub (s cur w : string) :
  In w (Py.split_ws_aux s cur) -> exists pre post, cur ++ s = pre ++ w ++ post.
Proof.
  revert cur. induction s as [|c r IH]; intros cur Hin; simpl in Hin.
  - destruct (String.eqb cur "") eqn:E; [contradiction|].
    destruct Hin as [<-|[]]. exists "", "". rewrite str_app_nil, str_app_nil_l. reflexivity.
  - destruct (Py.is_space c).
    + destruct (String.eqb cur "") eqn:E.
      * apply String.eqb_eq in E. subst cur.
        destruct (IH "" Hin) as (pre & post & Hp). rewrite str_app_nil_l in Hp.
        exists (String c pre), post. rewrite str_app_nil_l, Hp. reflexivity.
      * destruct Hin as [<-|Hin].
        -- exists "", (String c r). rewrite str_app_nil_l. reflexivity.
        -- destruct (IH "" Hin) as (pre & post & Hp). rewrite str_app_nil_l in Hp.
           exists (cur ++ String c pre), post.
           rewrite str_app_assoc, str_app_cons, <- Hp. reflexivity.
    + destruct (IH _ Hin) as (pre & post & Hp). exists pre, post.
      rewrite <- Hp, str_app_assoc. reflexivity.
Qed.

Lemma lstrip_suffix (s : string) : exists pre, s = pre ++ Py.lstrip s.
Proof.
  induction s as [|c r IH]; simpl; [exists ""; reflexivity|].
  destruct (Py.is_space c).
  - destruct IH as [pre Hp]. exists (String c pre). rewrite str_app_cons, <- Hp. reflexivity.
  - exists "". reflexivity.
Qed.

Lemma rev_str_app (a b : string) : Py.rev_str (a ++ b) = Py.rev_str b ++ Py.rev_str a.
Proof.
  induction a as [|c a IH].
  - rewrite str_app_nil_l. simpl. rewrite str_app_nil. reflexivity.
  - rewrite str_app_cons. simpl. rewrite IH, str_app_assoc. reflexivity.
Qed.

Lemma rev_str_involutive (s : string) : Py.rev_str (Py.rev_str s) = s.
Proof.
  induction s as [|c r IH]; [reflexivity|]. simpl.
  rewrite rev_str_app, IH. reflexivity.
Qed.

Lemma strip_sub (s : string) : exists pre post, s = pre ++ Py.strip s ++ post.
Proof.
  unfold Py.strip.
  destruct (lstrip_suffix s) as [p1 H1].
  destruct (lstrip_suffix (Py.rev_str (Py.lstrip s))) as [p2 H2].
  exists p1, (Py.rev_str p2).
  assert (E : Py.lstrip s = Py.rev_str (Py.lstrip (Py.rev_str (Py.lstrip s))) ++ Py.rev_str p2).
  { rewrite <- rev_str_app, <- H2, rev_str_involutive. reflexivity. }
  rewrite <- E. exact H1.
Qed.

(** X17 ([_parse_egressip_snat_rule]): a parsed SNAT rule whose external
    IP field is a dotted-quad IPv4 address is marked EgressIP related. *)
Theorem ipv4_external_ip_snat_rule_related (line e l p raw : string) (b : bool) :
  parse_egressip_snat_rule line = SnatParsed e l p raw b ->
  is_ipv4 e = true -> b = true.
Proof.
  unfold parse_egressip_snat_rule. intros H He.
  destruct (Py.split_ws (Py.strip line)) as [|p0 [|p1 [|p2 [|p3 rest]]]] eqn:E;
    try discriminate.
  destruct (String.eqb (Py.lower p0) "snat"); [|discriminate].
  injection H as H1 H2 H3 H4 H5. subst p1 b.
  assert (Hin : In e (Py.split_ws (Py.strip line))) by (rewrite E; simpl; auto).
  destruct (split_ws_aux_sub _ _ _ Hin) as (pre & post & Hp). rewrite str_app_nil_l in Hp.
  destruct (strip_sub line) as (pre' & post' & Hs).
  assert (Hl : line = (pre' ++ pre) ++ e ++ (post ++ post')).
  { rewrite Hs at 1. rewrite Hp, !str_app_assoc. reflexivity. }
  rewrite Hl. unfold is_egressip_related_snat.
  rewrite search_ipv4_inside by exact He. apply orb_true_r.
Qed.


(** Priority stats *)
Lemma fold_left_min_spec (ps : list Z) (a : Z) :
  In (fold_left Z.min ps a) (a :: ps)
  /\ (fold_left Z.min ps a <= a)%Z
  /\ Forall (fun x => (fold_left Z.min ps a <= x)%Z) ps.
Proof.
  revert a. induction ps as [|x ps IH]; intros a; simpl.
  - split; [auto|]. split; [lia | constructor].
  - destruct (IH (Z.min a x)) as (Hin & Hle & Hall). split; [|split].
    + destruct Hin as [E|Hin]; [|auto].
      rewrite <- E. destruct (Z.min_spec a x) as [[_ ->]|[_ ->]]; auto.
    + lia.
    + constructor; [lia | exact Hall].
Qed.

Lemma fold_left_max_spec (ps : list Z) (a : Z) :
  In (fold_left Z.max ps a) (a :: ps)
  /\ (a <= fold_left Z.max ps a)%Z
  /\ Forall (fun x => (x <= fold_left Z.max ps a)%Z) ps.
Proof.
  revert a. induction ps as [|x ps IH]; intros a; simpl.
  - split; [auto|]. split; [lia | constructor].
  - destruct (IH (Z.max a x)) as (Hin & Hle & Hall). split; [|split].
    + destruct Hin as [E|Hin]; [|auto].
      rewrite <- E. destruct (Z.max_spec a x) as [[_ ->]|[_ ->]]; auto.
    + lia.
    + constructor; [lia | exact Hall].
Qed.

(** X19 ([_analyze_egressip_lrp_rules], ["priority_stats"]): for a
    non-empty priority list, min and max are priorities of the list,
    every priority lies between them, and the unique count is between 1
    and the number of priorities. *)
Theorem priority_stats_bounds (priorities : list Z) :
  priorities <> [] ->
  In (ps_min (priority_stats_of priorities)) priorities
  /\ In (ps_max (priority_stats_of priorities)) priorities
  /\ Forall (fun x => ps_min (priority_stats_of priorities) <= x <= ps_max (priority_stats_of priorities))%Z priorities
  /\ (1 <= ps_unique_count (priority_stats_of priorities) <= length priorities)%nat.
Proof.
  destruct priorities as [|p ps]; [congruence|]. intros _. simpl.
  destruct (fold_left_min_spec ps p) as (Hmin & Hmin1 & Hmin2).
  destruct (fold_left_max_spec ps p) as (Hmax & Hmax1 & Hmax2).
  split; [exact Hmin|]. split; [exact Hmax|]. split.
  - constructor; [lia|]. apply Forall_forall. intros x Hx.
    rewrite Forall_forall in Hmin2, Hmax2. split; [apply Hmin2 | apply Hmax2]; exact Hx.
  - split.
    + cbn [list_to_set]. rewrite <- (size_singleton (C:=gset Z) p). apply subseteq_size. set_solver.
    + exact (size_list_to_set_le (p :: ps)).
Qed.

(* ------------------------------------------------------------------ *)
(** ** The further properties on concrete inputs *)

Lemma monitor_long_session_checks_witness :
  Monitor.cancelled_at quiet_env = None /\ (10 <= 300)%Z
  /\ exists n, (10 <= n)%nat /\ Z.of_nat n = (300 / Z.min 30 (300 / 10))%Z
  /\ Monitor.monitor_egressip_rule_changes quiet_env "node1" 300
     = Monitor.Returned (Monitor.MonSuccess "node1" 300 (S n)
         (Monitor.change_events (map (Monitor.take quiet_env) (seq 0 (S n))))
         (Monitor.stability (Monitor.change_events (map (Monitor.take quiet_env) (seq 0 (S n)))))
         (map (Monitor.take quiet_env) (seq 0 (S n)))).
Proof.
  split; [reflexivity|]. split; [lia|].
  apply monitor_long_session_checks; [reflexivity | lia].
Defined.

Lemma monitor_negative_duration_succeeds_witness :
  Monitor.cancelled_at quiet_env = None /\ (-25 < 0)%Z
  /\ exists n, (1 <= n <= 10)%nat /\ Z.of_nat n = (-25 / (-25 / 10))%Z
  /\ Monitor.monitor_egressip_rule_changes quiet_env "node1" (-25)
     = Monitor.Returned (Monitor.MonSuccess "node1" (-25) (S n)
         (Monitor.change_events (map (Monitor.take quiet_env) (seq 0 (S n))))
         (Monitor.stability (Monitor.change_events (map (Monitor.take quiet_env) (seq 0 (S n)))))
         (map (Monitor.take quiet_env) (seq 0 (S n)))).
Proof.
  split; [reflexivity|]. split; [lia|].
  apply monitor_negative_duration_succeeds; [reflexivity | lia].
Defined.

Lemma node_recommendations_without_rules_witness :
  get_egressip_snat_rules None = [] /\ get_egressip_lrp_rules None = []
  /\ node_recommendations None None (CtxUnavailable "timeout")
     = Some [rec_no_snat; rec_no_lrp; rec_poor].
Proof.
  split; [reflexivity|]. split; [reflexivity|].
  rewrite (node_recommendations_without_rules None None (CtxUnavailable "timeout") eq_refl eq_refl).
  reflexivity.
Defined.

Lemma timestamp_only_changes_are_stable_witness :
  (2 <= length ["t1"; "t2"; "t3"])%nat
  /\ analyze_egressip_rule_changes
       (map (with_timestamp (snapshot_of_rules (0, 0)%Z "" [] [])) ["t1"; "t2"; "t3"])
     = ChangeAnalysis false 0 []
  /\ stab_stability (assess_egressip_rule_stability
       (analyze_egressip_rule_changes
          (map (with_timestamp (snapshot_of_rules (0, 0)%Z "" [] [])) ["t1"; "t2"; "t3"])))
     = "stable".
Proof.
  split; [simpl; lia|].
  apply timestamp_only_changes_are_stable. simpl. lia.
Defined.

Lemma change_analysis_bounds_witness :
  (2 <= length (map (Monitor.take quiet_env) (seq 0 3)))%nat
  /\ exists ch, analyze_egressip_rule_changes (map (Monitor.take quiet_env) (seq 0 3))
                = ChangeAnalysis (Nat.ltb 0 (length ch)) (length ch) ch
     /\ length ch = Monitor.change_events (map (Monitor.take quiet_env) (seq 0 3))
     /\ (length ch <= length (map (Monitor.take quiet_env) (seq 0 3)) - 1)%nat
     /\ Forall (fun c => c <> []) ch.
Proof.
  split; [simpl; lia|].
  apply change_analysis_bounds. simpl. lia.
Defined.

Lemma single_node_comparison_consistent_witness :
  (count node_succeeded [("node1", analyze_node_rules None None)] <= 1)%nat
  /\ compare_egressip_rules_report [("node1", analyze_node_rules None None)]
     = {| mn_inconsistencies := []; mn_overall_consistency := true;
          mn_recommendations := [multi_rec_ok] |}.
Proof.
  split; [vm_compute; lia|].
  apply single_node_comparison_consistent. vm_compute. lia.
Defined.

Lemma ipv4_literal_marks_line_related_witness :
  is_ipv4 "10.0.0.5" = true
  /\ is_egressip_related_snat ("dnat_and_snat " ++ "10.0.0.5" ++ " 10.128.0.5 p1") = true
  /\ is_egressip_related_lrp ("dnat_and_snat " ++ "10.0.0.5" ++ " 10.128.0.5 p1") = true.
Proof.
  split; [vm_compute; reflexivity|].
  apply ipv4_literal_marks_line_related. vm_compute. reflexivity.
Defined.

Lemma ipv4_external_ip_snat_rule_related_witness :
  parse_egressip_snat_rule "SNAT 10.0.0.5 10.128.0.5 p1"
  = SnatParsed "10.0.0.5" "10.128.0.5" "p1" "SNAT 10.0.0.5 10.128.0.5 p1" true
  /\ is_ipv4 "10.0.0.5" = true /\ true = true.
Proof.
  split; [vm_compute; reflexivity|]. split; [vm_compute; reflexivity|].
  apply (ipv4_external_ip_snat_rule_related "SNAT 10.0.0.5 10.128.0.5 p1"
           "10.0.0.5" "10.128.0.5" "p1" "SNAT 10.0.0.5 10.128.0.5 p1" true);
    vm_compute; reflexivity.
Defined.

Lemma priority_stats_bounds_witness :
  [100; 200; 100]%Z <> []
  /\ In (ps_min (priority_stats_of [100; 200; 100]%Z)) [100; 200; 100]%Z
  /\ In (ps_max (priority_stats_of [100; 200; 100]%Z)) [100; 200; 100]%Z
  /\ Forall (fun x => ps_min (priority_stats_of [100; 200; 100]%Z) <= x
                      <= ps_max (priority_stats_of [100; 200; 100]%Z))%Z [100; 200; 100]%Z
  /\ (1 <= ps_unique_count (priority_stats_of [100; 200; 100]%Z) <= length [100; 200; 100]%Z)%nat.
Proof.
  split; [discriminate|].
  apply priority_stats_bounds. discriminate.
Defined.

(* ------------------------------------------------------------------ *)
(** ** An invalid priority among the analysed policy rules *)

Lemma lrp_loop_app (l1 l2 : list lrp_rule) prios acts issues :
  lrp_loop (app l1 l2) prios acts issues
  = match lrp_loop l1 prios acts issues with
    | Some (prios', acts', issues') => lrp_loop l2 prios' acts' issues'
    | None => None
    end.
Proof.
  revert prios acts issues.
  induction l1 as [|r l1 IH]; intros prios acts issues; [reflexivity|].
  destruct r as [p m a raw b|raw]; simpl; [|apply IH].
  destruct (if String.eqb p "" then (prios, issues)
            else match PyInt.parse p with
                 | Some z => (app prios [z], issues)
                 | None => (prios, app issues ["Invalid priority: " ++ p])
                 end) as [prios1 issues1].
  destruct (String.eqb a ""); [apply IH|].
  destruct (Py.split_ws a); [reflexivity|apply IH].
Qed.

(** The priorities and issues a run of the loop adds do not depend on
    what was collected before it. *)
Lemma lrp_loop_frame (l : list lrp_rule) prios acts issues prios' acts' issues' :
  lrp_loop l prios acts issues = Some (prios', acts', issues') ->
  forall prios0 acts0 issues0, exists acts0',
    lrp_loop l (app prios0 prios) acts0 (app issues0 issues)
    = Some (app prios0 prios', acts0', app issues0 issues').
Proof.
  revert prios acts issues.
  induction l as [|r l IH]; intros prios acts issues H prios0 acts0 issues0.
  - simpl in H. injection H as <- <- <-. eexists. reflexivity.
  - destruct r as [p m a raw b|raw]; simpl in H |- *.
    + destruct (String.eqb p "").
      * destruct (String.eqb a "").
        -- apply (IH _ _ _ H).
        -- destruct (Py.split_ws a) as [|w ws]; [discriminate|]. apply (IH _ _ _ H).
      * destruct (PyInt.parse p) as [z|].
        -- destruct (String.eqb a "").
           ++ rewrite <- (app_assoc prios0 prios [z]). apply (IH _ _ _ H).
           ++ destruct (Py.split_ws a) as [|w ws]; [discriminate|].
              rewrite <- (app_assoc prios0 prios [z]). apply (IH _ _ _ H).
        -- destruct (String.eqb a "").
           ++ rewrite <- (app_assoc issues0 issues). apply (IH _ _ _ H).
           ++ destruct (Py.split_ws a) as [|w ws]; [discriminate|].
              rewrite <- (app_assoc issues0 issues). apply (IH _ _ _ H).
    + rewrite <- (app_assoc issues0 issues). apply (IH _ _ _ H).
Qed.

Lemma lrp_loop_parsed_lines (lines : list string) :
  exists prios acts issues,
    lrp_loop (map parse_egressip_lrp_rule lines) [] [] [] = Some (prios, acts, issues).
Proof.
  destruct (lrp_loop_well_formed (map parse_egressip_lrp_rule lines) [] [] [])
    as (prios & acts & issues & H & _).
  - apply Forall_forall. intros r Hr.
    apply list_elem_of_In, in_map_iff in Hr as [l [<- _]].
    apply parse_lrp_well_formed.
  - eauto.
Qed.

(** C3 (amended): a policy line with three segments whose priority is
    not an integer for [int()] is parsed successfully with the priority
    text and the raw line kept; wherever it stands among the analysed
    rules, the LRP analysis records the issue ["Invalid priority: <p>"]
    at its place among the issues and adds no priority for it: the
    priorities are those of the rules before and after it, the issues are
    theirs with this one in between. *)
Theorem lrp_invalid_priority_flagged_by_analysis (line p m a : string) (pre post : list string) :
  Py.split_ws_max2 (Py.strip line) = [p; m; a] ->
  PyInt.parse p = None ->
  parse_egressip_lrp_rule line = LrpParsed p m a line (is_egressip_related_lrp line)
  /\ exists la la_pre la_post,
       analyze_egressip_lrp_rules
         (app (map parse_egressip_lrp_rule pre)
              (parse_egressip_lrp_rule line :: map parse_egressip_lrp_rule post)) = Some la
       /\ analyze_egressip_lrp_rules (map parse_egressip_lrp_rule pre) = Some la_pre
       /\ analyze_egressip_lrp_rules (map parse_egressip_lrp_rule post) = Some la_post
       /\ la_priorities la = app (la_priorities la_pre) (la_priorities la_post)
       /\ la_potential_issues la
          = app (la_potential_issues la_pre)
                (("Invalid priority: " ++ p) :: la_potential_issues la_post).
Proof.
  intros Hs Hp.
  destruct (split_ws_max2_three _ _ _ _ Hs) as [Hp0 [w [ws Hw]]].
  assert (Hparse : parse_egressip_lrp_rule line
                   = LrpParsed p m a line (is_egressip_related_lrp line)).
  { unfold parse_egressip_lrp_rule. rewrite Hs. reflexivity. }
  split; [exact Hparse|].
  destruct (lrp_loop_parsed_lines pre) as (P1 & A1 & I1 & H1).
  destruct (lrp_loop_parsed_lines post) as (P2 & A2 & I2 & H2).
  destruct (lrp_loop_frame _ _ _ _ _ _ _ H2 P1 (bump w A1) (app I1 ["Invalid priority: " ++ p]))
    as [A3 H3].
  rewrite !app_nil_r in H3.
  unfold analyze_egressip_lrp_rules.
  rewrite lrp_loop_app, H1, H2, Hparse. simpl.
  destruct (String.eqb p "") eqn:E.
  { apply String.eqb_eq in E. contradiction. }
  rewrite Hp.
  destruct (String.eqb a "") eqn:Ea.
  { apply String.eqb_eq in Ea. subst a. discriminate Hw. }
  rewrite Hw, H3.
  do 3 eexists. split; [reflexivity|]. split; [reflexivity|]. split; [reflexivity|].
  simpl. split; [reflexivity|]. rewrite <- app_assoc. reflexivity.
Qed.

Lemma lrp_invalid_priority_flagged_by_analysis_witness :
  Py.split_ws_max2 (Py.strip "high ip4.src==10.0.0.1 drop")
    = ["high"; "ip4.src==10.0.0.1"; "drop"]
  /\ PyInt.parse "high" = None
  /\ (parse_egressip_lrp_rule "high ip4.src==10.0.0.1 drop"
      = LrpParsed "high" "ip4.src==10.0.0.1" "drop" "high ip4.src==10.0.0.1 drop"
          (is_egressip_related_lrp "high ip4.src==10.0.0.1 drop")
      /\ exists la la_pre la_post,
           analyze_egressip_lrp_rules
             (app (map parse_egressip_lrp_rule ["100 ip4.src==10.0.0.5 reroute 10.0.0.9"; "x y"])
                  (parse_egressip_lrp_rule "high ip4.src==10.0.0.1 drop"
                   :: map parse_egressip_lrp_rule ["200 ip4.src==10.0.0.6 allow"])) = Some la
           /\ analyze_egressip_lrp_rules
                (map parse_egressip_lrp_rule ["100 ip4.src==10.0.0.5 reroute 10.0.0.9"; "x y"])
              = Some la_pre
           /\ analyze_egressip_lrp_rules
                (map parse_egressip_lrp_rule ["200 ip4.src==10.0.0.6 allow"]) = Some la_post
           /\ la_priorities la = app (la_priorities la_pre) (la_priorities la_post)
           /\ la_potential_issues la
              = app (la_potential_issues la_pre)
                    (("Invalid priority: " ++ "high") :: la_potential_issues la_post)).
Proof.
  split; [vm_compute; reflexivity|]. split; [vm_compute; reflexivity|].
  apply lrp_invalid_priority_flagged_by_analysis;
    vm_compute; reflexivity.
Defined.
